(** * DPO/utils.py: dataset preparation and model preparation for DPO

    A shallow embedding of [src/DPO/utils.py].  The file has two functions,
    [create_dpo_datasets] and [create_and_prepare_model_for_dpo]; both are
    sequences of conditionals that decide which call of an external library
    (datasets, transformers, peft, torch) is made and with which arguments.

    The embedding keeps the Python control flow: exceptions are a [result],
    calls with an effect the claims speak about (loading, [map], [len],
    [print]) are written to a trace, and the objects the external
    constructors return are records of the keyword arguments they were
    given. *)

From Stdlib Require Import Ascii.
From Stdlib Require QArith.
From stdpp Require Import gmap strings list fin_maps pretty.

Local Open Scope Z_scope.

(** ** Exceptions and results *)

(** The value of [data_args.splits]: a [str] (as in "train,test") or a list of
    [str].  Python's [in] and [!=] behave differently on the two. *)
Inductive splits_value :=
| SplitsStr (s : string)
| SplitsList (l : list string).

Inductive exn :=
| ValueError_split_type (splits : splits_value)
    (* ValueError(f"Split type {splits} not recognized as one of test or train.") *)
| KeyError (key : string)
| AttributeError (type_name attr : string)
| TypeError (msg : string)
| ExternalError (what : string).
    (* an exception raised inside a call of an external library *)

Inductive result (A : Type) :=
| Ok (a : A)
| Raise (e : exn).
Arguments Ok {A} a.
Arguments Raise {A} e.

(** What a call into an external library does: it returns, or raises an
    exception of the library's own. *)
Inductive external (A : Type) :=
| Returns (a : A)
| Fails (what : string).
Arguments Returns {A} a.
Arguments Fails {A} what.

Definition external_call {A} (x : external A) : result A :=
  match x with
  | Returns a => Ok a
  | Fails what => Raise (ExternalError what)
  end.

#[global] Instance result_ret : MRet result := λ A a, Ok a.
#[global] Instance result_bind : MBind result := λ A B f r,
  match r with
  | Ok a => f a
  | Raise e => Raise e
  end.
#[global] Instance result_fmap : FMap result := λ A B f r,
  match r with
  | Ok a => Ok (f a)
  | Raise e => Raise e
  end.

(** ** Python string operations used by the source *)

(** [s.startswith(prefix)] *)
Fixpoint startswith (prefix s : string) : bool :=
  match prefix, s with
  | EmptyString, _ => true
  | String a p, String b t => if Ascii.eqb a b then startswith p t else false
  | String _ _, EmptyString => false
  end.

(** [s[n:]] *)
Fixpoint slice_from (n : nat) (s : string) : string :=
  match n, s with
  | O, _ => s
  | S n', String _ t => slice_from n' t
  | S _, EmptyString => EmptyString
  end.

(** [sub in s] for two strings: [sub] occurs in [s] as a substring. *)
Fixpoint str_contains (sub s : string) : bool :=
  startswith sub s ||
  match s with
  | EmptyString => false
  | String _ t => str_contains sub t
  end.

(** [s.split(sep)] for a one-character separator. *)
Fixpoint split (sep : ascii) (s : string) : list string :=
  match s with
  | EmptyString => [EmptyString]
  | String c t =>
      if Ascii.eqb c sep then EmptyString :: split sep t
      else match split sep t with
           | x :: xs => String c x :: xs
           | [] => [String c EmptyString]
           end
  end.

(** [sep.join(pieces)], used to state what [split] returns. *)
Fixpoint join (sep : ascii) (pieces : list string) : string :=
  match pieces with
  | [] => EmptyString
  | [x] => x
  | x :: rest => x +:+ String sep (join sep rest)
  end.

Fixpoint has_char (c : ascii) (s : string) : bool :=
  match s with
  | EmptyString => false
  | String a t => Ascii.eqb a c || has_char c t
  end.

(** [s.lower()].  On the letters A to Z this is Python's [lower]; other
    bytes are kept.  No character outside A to Z lowers to one of t, r, u, e,
    so the comparison with "true" in the source is decided by this part. *)
Definition ascii_lower (c : ascii) : ascii :=
  let n := Ascii.nat_of_ascii c in
  if (65 <=? n)%nat && (n <=? 90)%nat then Ascii.ascii_of_nat (n + 32) else c.

Fixpoint lower (s : string) : string :=
  match s with
  | EmptyString => EmptyString
  | String c t => String (ascii_lower c) (lower t)
  end.

Definition nl : string := String (Ascii.ascii_of_nat 10) EmptyString.

(** [x in splits] and [splits != x] for a string [x]. *)
Definition py_in (x : string) (splits : splits_value) : bool :=
  match splits with
  | SplitsStr s => str_contains x s
  | SplitsList l => bool_decide (x ∈ l)
  end.

Definition py_ne (splits : splits_value) (x : string) : bool :=
  match splits with
  | SplitsStr s => negb (String.eqb s x)
  | SplitsList _ => true
  end.

(** ** Datasets *)

Inductive message := Message (role content : string).

(** The value of one field of one example. *)
Inductive cell :=
| CNone
| CInt (z : Z)
| CStr (s : string)
| CMessages (ms : list message).

(** One example: a dict from column name to value. *)
Abbreviation row := (gmap string cell).

(** The objects that flow through [create_dpo_datasets]: what the loaders
    return (a [Dataset] or a [DatasetDict]), a column taken out of a
    [Dataset] (a plain list), and [None]. *)
Inductive pyobj :=
| PNone
| PList (xs : list cell)
| PDataset (rows : list row)
| PDatasetDict (splits : list (string * list row)).

(** What a loader returns: a [Dataset] or a [DatasetDict]. *)
Inductive loaded :=
| LoadedDataset (rows : list row)
| LoadedDatasetDict (splits : list (string * list row)).

Definition obj_of_loaded (l : loaded) : pyobj :=
  match l with
  | LoadedDataset rows => PDataset rows
  | LoadedDatasetDict d => PDatasetDict d
  end.

Fixpoint assoc_lookup {A} (k : string) (d : list (string * A)) : option A :=
  match d with
  | [] => None
  | (k', v) :: rest => if String.eqb k' k then Some v else assoc_lookup k rest
  end.

Fixpoint column (k : string) (rows : list row) : option (list cell) :=
  match rows with
  | [] => Some []
  | r :: rest =>
      match r !! k, column k rest with
      | Some v, Some vs => Some (v :: vs)
      | _, _ => None
      end
  end.

(** [obj[key]] for a string key. *)
Definition py_getitem (obj : pyobj) (key : string) : result pyobj :=
  match obj with
  | PDatasetDict d =>
      match assoc_lookup key d with
      | Some rows => Ok (PDataset rows)
      | None => Raise (KeyError key)
      end
  | PDataset rows =>
      match column key rows with
      | Some vs => Ok (PList vs)
      | None => Raise (KeyError key)
      end
  | PList _ => Raise (TypeError "list indices must be integers or slices, not str")
  | PNone => Raise (TypeError "'NoneType' object is not subscriptable")
  end.

(** [row[key]] *)
Definition row_getitem (r : row) (key : string) : result cell :=
  match r !! key with
  | Some v => Ok v
  | None => Raise (KeyError key)
  end.

(** [Dataset.map(function, batched=False)]: the function is applied to the
    examples in order and each example is updated with the dict the function
    returns. *)
Fixpoint dataset_map (f : row → result row) (rows : list row) : result (list row) :=
  match rows with
  | [] => Ok []
  | r :: rest =>
      out ← f r;
      rest' ← dataset_map f rest;
      Ok ((out ∪ r) :: rest')
  end.

(** [DatasetDict.map]: every split is mapped. *)
Fixpoint datasetdict_map (f : row → result row) (d : list (string * list row))
  : result (list (string * list row)) :=
  match d with
  | [] => Ok []
  | (k, rows) :: rest =>
      rows' ← dataset_map f rows;
      rest' ← datasetdict_map f rest;
      Ok ((k, rows') :: rest')
  end.

(** [obj.map(f, batched=False)] *)
Definition py_map (f : row → result row) (obj : pyobj) : result pyobj :=
  match obj with
  | PNone => Raise (AttributeError "NoneType" "map")
  | PList _ => Raise (AttributeError "list" "map")
  | PDataset rows => PDataset <$> dataset_map f rows
  | PDatasetDict d => PDatasetDict <$> datasetdict_map f d
  end.

(** [len(obj)] *)
Definition py_len (obj : pyobj) : result nat :=
  match obj with
  | PNone => Raise (TypeError "object of type 'NoneType' has no len()")
  | PList xs => Ok (length xs)
  | PDataset rows => Ok (length rows)
  | PDatasetDict d => Ok (length d)
  end.

(** The examples of a returned split, with their position: for a [Dataset]
    its rows, for a [DatasetDict] the rows of each of its splits. *)
Definition rows_of (obj : pyobj) : list (list row) :=
  match obj with
  | PDataset rows => [rows]
  | PDatasetDict d => snd <$> d
  | PNone | PList _ => []
  end.

(** ** Objects of the external libraries *)

(** The part of the [torch] namespace the source reads with [getattr]: its
    dtypes.  [torch_getattr] is [getattr(torch, name)]; a name that is not
    in the table raises [AttributeError]. *)
Inductive dtype :=
| float16 | bfloat16 | float32 | float64
| uint8 | int8 | int16 | int32 | int64 | bool_.

#[global] Instance dtype_eq_dec : EqDecision dtype.
Proof. solve_decision. Defined.

Definition torch_dtype_table : list (string * dtype) :=
  [ ("float16", float16); ("half", float16); ("bfloat16", bfloat16);
    ("float32", float32); ("float", float32);
    ("float64", float64); ("double", float64);
    ("uint8", uint8); ("int8", int8); ("int16", int16); ("short", int16);
    ("int32", int32); ("int", int32); ("int64", int64); ("long", int64);
    ("bool", bool_) ].

Definition torch_getattr (name : string) : result dtype :=
  match assoc_lookup name torch_dtype_table with
  | Some d => Ok d
  | None => Raise (AttributeError "module 'torch'" name)
  end.

(** [dtype.is_floating_point] *)
Definition is_floating_point (d : dtype) : bool :=
  match d with
  | float16 | bfloat16 | float32 | float64 => true
  | _ => false
  end.

(** A [BitsAndBytesConfig], as the keyword arguments of the constructor call
    that built it. *)
Inductive BitsAndBytesConfig :=
| BitsAndBytesConfig_4bit
    (load_in_4bit : bool) (bnb_4bit_quant_type : string)
    (bnb_4bit_compute_dtype : dtype) (bnb_4bit_use_double_quant : bool)
    (bnb_4bit_quant_storage : dtype)
| BitsAndBytesConfig_8bit (load_in_8bit : bool).

(** [target_modules] of a [LoraConfig]: a list of names or one string. *)
Inductive target_modules_value :=
| TargetList (names : list string)
| TargetStr (s : string).

Inductive LoraConfig :=
| mkLoraConfig
    (lora_alpha : Z) (lora_dropout : QArith_base.Q) (r : Z) (bias task_type : string)
    (target_modules : target_modules_value).

(** A call of [model.resize_token_embeddings]; [mean_resizing] is [None]
    when the keyword is not passed. *)
Record ResizeCall := {
  new_num_tokens : nat;
  pad_to_multiple_of : nat;
  mean_resizing : option bool
}.

(** The model object: the keyword arguments of
    [AutoModelForCausalLM.from_pretrained] and the resize calls made on it
    since, oldest first. *)
Record Model := {
  pretrained_model_name_or_path : string;
  quantization_config : option BitsAndBytesConfig;
  model_trust_remote_code : bool;
  attn_implementation : string;
  torch_dtype : dtype;
  resize_calls : list ResizeCall
}.

(** The tokenizer object: the arguments of [AutoTokenizer.from_pretrained]
    (a keyword that is not passed is [None]) and its [chat_template]
    attribute ([None] until the source assigns it). *)
Record Tokenizer := {
  tokenizer_path : string;
  pad_token : option string;
  bos_token : option string;
  eos_token : option string;
  additional_special_tokens : option (list string);
  tokenizer_trust_remote_code : bool;
  chat_template : option string
}.

(** A parsed version: its release segment and whether it carries a
    pre-release or development marker (a, b, rc, dev), which orders it
    before the final release of the same number. *)
Record Version := {
  release : list nat;
  is_prerelease : bool
}.

Definition all_zero (l : list nat) : bool := forallb (Nat.eqb 0) l.

(** Comparison of release segments; a missing component counts as 0. *)
Fixpoint release_compare (a b : list nat) : comparison :=
  match a, b with
  | [], _ => if all_zero b then Eq else Lt
  | _ :: _, [] => if all_zero a then Eq else Gt
  | x :: a', y :: b' =>
      match Nat.compare x y with
      | Eq => release_compare a' b'
      | c => c
      end
  end.

(** [v >= packaging.version.parse(r)] for a final release [r]. *)
Definition version_ge_release (v : Version) (r : list nat) : bool :=
  match release_compare (release v) r with
  | Gt => true
  | Eq => negb (is_prerelease v)
  | Lt => false
  end.

(** What the code reads from outside itself: the two dataset loaders, the
    chat-template renderer [tokenizer.apply_chat_template(messages,
    tokenize=False)], [len(tokenizer)], [torch.cuda.get_device_capability()],
    [os.environ] and [transformers.__version__]. *)
Record Library := {
  load_from_disk : string → external loaded;
  load_dataset : string → external loaded;
  tokenizer_apply_chat_template : Tokenizer → cell → external string;
  tokenizer_len : Tokenizer → nat;
  cuda_get_device_capability : external (nat * nat);
  environ : gmap string string;
  transformers_version : Version
}.

(** ** Traces *)

Inductive event :=
| CallLoadFromDisk (name : string)
| CallLoadDataset (name : string)
| CallMap (receiver : pyobj)
| CallLen (arg : pyobj)
| CallPrint (line : string).

(** A run: the events so far and how it ended. *)
Definition M (A : Type) : Type := list event * result A.

#[global] Instance M_ret : MRet M := λ A a, ([], Ok a).
#[global] Instance M_bind : MBind M := λ A B f m,
  match m with
  | (t, Ok a) => let '(t', r) := f a in (t ++ t', r)
  | (t, Raise e) => (t, Raise e)
  end.

Definition emit (e : event) : M unit := ([e], Ok ()).
Definition lift {A} (r : result A) : M A := ([], r).
Definition print (line : string) : M unit := emit (CallPrint line).

Definition trace {A} (m : M A) : list event := fst m.
Definition outcome {A} (m : M A) : result A := snd m.

(** ** Module constants and the special-token enums *)

Definition DEFAULT_CHATML_CHAT_TEMPLATE : string :=
  "{% for message in messages %}" +:+ nl +:+
  "{{'<|im_start|>' + message['role'] + '" +:+ nl +:+
  "' + message['content'] + '<|im_end|>' + '" +:+ nl +:+
  "'}}{% if loop.last and add_generation_prompt %}{{'<|im_start|>assistant" +:+ nl +:+
  "' }}{% endif %}{% endfor %}".

Definition DEFAULT_ZEPHYR_CHAT_TEMPLATE : string :=
  "{% for message in messages %}" +:+ nl +:+
  "{% if message['role'] == 'user' %}" +:+ nl +:+
  "{{ '<|user|>" +:+ nl +:+
  "' + message['content'] + eos_token }}" +:+ nl +:+
  "{% elif message['role'] == 'system' %}" +:+ nl +:+
  "{{ '<|system|>" +:+ nl +:+
  "' + message['content'] + eos_token }}" +:+ nl +:+
  "{% elif message['role'] == 'assistant' %}" +:+ nl +:+
  "{{ '<|assistant|>" +:+ nl +:+
  "'  + message['content'] + eos_token }}" +:+ nl +:+
  "{% endif %}" +:+ nl +:+
  "{% if loop.last and add_generation_prompt %}" +:+ nl +:+
  "{{ '<|assistant|>' }}" +:+ nl +:+
  "{% endif %}" +:+ nl +:+
  "{% endfor %}".

(** The two enums mix in [str], so every member's value is a string: Python
    builds the value of [bos_token = None] in [ChatmlSpecialTokens] as
    [str(None)], the four letters None.  [list] walks the members in the
    order of their definition. *)
Module ZephyrSpecialTokens.
Inductive t := user | assistant | system | eos_token | bos_token | pad_token.

Definition value (c : t) : string :=
  match c with
  | user => "<|user|>"
  | assistant => "<|assistant|>"
  | system => "<|system|>"
  | eos_token => "</s>"
  | bos_token => "<s>"
  | pad_token => "<pad>"
  end.

Definition members : list t :=
  [user; assistant; system; eos_token; bos_token; pad_token].

Definition list : list string := value <$> members.
End ZephyrSpecialTokens.

Module ChatmlSpecialTokens.
Inductive t := user | assistant | system | eos_token | bos_token | pad_token.

Definition value (c : t) : string :=
  match c with
  | user => "<|im_start|>user"
  | assistant => "<|im_start|>assistant"
  | system => "<|im_start|>system"
  | eos_token => "<|im_end|>"
  | bos_token => "None"
  | pad_token => "<|endoftext|>"
  end.

Definition members : list t :=
  [user; assistant; system; eos_token; bos_token; pad_token].

Definition list : list string := value <$> members.
End ChatmlSpecialTokens.

(** The value of the variable [special_tokens]: one of the two classes. *)
Inductive special_tokens_class := Chatml | Zephyr.

Definition pad_token_value (c : special_tokens_class) : string :=
  match c with
  | Chatml => ChatmlSpecialTokens.value ChatmlSpecialTokens.pad_token
  | Zephyr => ZephyrSpecialTokens.value ZephyrSpecialTokens.pad_token
  end.

Definition bos_token_value (c : special_tokens_class) : string :=
  match c with
  | Chatml => ChatmlSpecialTokens.value ChatmlSpecialTokens.bos_token
  | Zephyr => ZephyrSpecialTokens.value ZephyrSpecialTokens.bos_token
  end.

Definition eos_token_value (c : special_tokens_class) : string :=
  match c with
  | Chatml => ChatmlSpecialTokens.value ChatmlSpecialTokens.eos_token
  | Zephyr => ZephyrSpecialTokens.value ZephyrSpecialTokens.eos_token
  end.

Definition special_tokens_list (c : special_tokens_class) : list string :=
  match c with
  | Chatml => ChatmlSpecialTokens.list
  | Zephyr => ZephyrSpecialTokens.list
  end.

(** ** create_dpo_datasets *)

Record DataArgs := {
  dataset_name : string;
  is_local_data : bool;
  splits : splits_value;
  apply_chat_template : string;
  remove_system_message : bool
}.

Definition system_message : string :=
  "<|im_start|>system" +:+ nl +:+
  "You are Qwen, created by Alibaba Cloud. You are a helpful assistant.<|im_end|>" +:+ nl.

(** The nested function [to_apply_chat_template]; its third parameter
    defaults to [data_args.remove_system_message] and the only caller,
    [preprocess], leaves it at the default. *)
Definition to_apply_chat_template (lib : Library) (messages : cell)
    (tokenizer : Tokenizer) (remove_system_message : bool) : result string :=
  text ← external_call (tokenizer_apply_chat_template lib tokenizer messages);
  let text :=
    if remove_system_message then
      if startswith system_message text
      then slice_from (String.length system_message) text
      else text
    else text in
  Ok text.

(** The nested function [preprocess]. *)
Definition preprocess (lib : Library) (tokenizer : Tokenizer)
    (data_args : DataArgs) (r : row) : result row :=
  chosen_in ← row_getitem r "chosen";
  chosen ← to_apply_chat_template lib chosen_in tokenizer
             (remove_system_message data_args);
  rejected_in ← row_getitem r "rejected";
  rejected ← to_apply_chat_template lib rejected_in tokenizer
               (remove_system_message data_args);
  Ok (<["chosen" := CStr chosen]> (<["rejected" := CStr rejected]> ∅)).

(** [raw_datasets[key]] *)
Definition dict_getitem (d : gmap string pyobj) (key : string) : result pyobj :=
  match d !! key with
  | Some v => Ok v
  | None => Raise (KeyError key)
  end.

Inductive loader := LoadFromDisk | LoadDataset.

(** [load_dataset_func(name)] *)
Definition call_loader (lib : Library) (f : loader) (name : string) : M pyobj :=
  match f with
  | LoadFromDisk =>
      _ ← emit (CallLoadFromDisk name);
      lift (obj_of_loaded <$> external_call (load_from_disk lib name))
  | LoadDataset =>
      _ ← emit (CallLoadDataset name);
      lift (obj_of_loaded <$> external_call (load_dataset lib name))
  end.

(** [receiver.map(f, batched=False)]; the event records the receiver the
    expression is evaluated on, also when that receiver has no [map]. *)
Definition call_map (f : row → result row) (receiver : pyobj) : M pyobj :=
  _ ← emit (CallMap receiver); lift (py_map f receiver).

(** [len(arg)] *)
Definition call_len (arg : pyobj) : M nat :=
  _ ← emit (CallLen arg); lift (py_len arg).

(** Lines 83 to 91: the four [if] statements that fill [raw_datasets]. *)
Definition select_splits (dataset : pyobj) (splits : splits_value)
  : result (gmap string pyobj) :=
  let raw_datasets : gmap string pyobj := ∅ in
  raw_datasets ←
    (if py_in "train" splits
     then v ← py_getitem dataset "train"; Ok (<["train" := v]> raw_datasets)
     else Ok raw_datasets);
  raw_datasets ←
    (if py_in "test" splits
     then v ← py_getitem dataset "test"; Ok (<["test" := v]> raw_datasets)
     else Ok raw_datasets);
  let raw_datasets :=
    if py_in "none" splits
    then <["test" := PNone]> (<["train" := dataset]> raw_datasets)
    else raw_datasets in
  if negb (py_in "train" splits) && negb (py_in "test" splits)
     && negb (py_in "none" splits)
  then Raise (ValueError_split_type splits)
  else Ok raw_datasets.

(** Lines 103 to 106: the chat-template preprocessing. *)
Definition apply_preprocessing (lib : Library) (tokenizer : Tokenizer)
    (data_args : DataArgs) (raw_datasets : gmap string pyobj)
  : M (gmap string pyobj) :=
  if negb (String.eqb (apply_chat_template data_args) "none") then
    train ← lift (dict_getitem raw_datasets "train");
    train' ← call_map (preprocess lib tokenizer data_args) train;
    let raw_datasets := <["train" := train']> raw_datasets in
    if py_ne (splits data_args) "none" then
      test ← lift (dict_getitem raw_datasets "test");
      test' ← call_map (preprocess lib tokenizer data_args) test;
      mret (<["test" := test']> raw_datasets)
    else mret raw_datasets
  else mret raw_datasets.

(** Lines 110 to 114: the two size reports. *)
Definition print_sizes (data_args : DataArgs) (raw_datasets : gmap string pyobj)
  : M unit :=
  train ← lift (dict_getitem raw_datasets "train");
  n ← call_len train;
  _ ← print ("Dataset size: " +:+ pretty n);
  if py_ne (splits data_args) "none" then
    test ← lift (dict_getitem raw_datasets "test");
    n ← call_len test;
    print ("Dataset size: " +:+ pretty n)
  else mret ().

Definition create_dpo_datasets (lib : Library) (tokenizer : Tokenizer)
    (data_args : DataArgs) : M (pyobj * pyobj) :=
  let load_dataset_func :=
    if is_local_data data_args then LoadFromDisk else LoadDataset in
  dataset ← call_loader lib load_dataset_func (dataset_name data_args);
  raw_datasets ← lift (select_splits dataset (splits data_args));
  raw_datasets ← apply_preprocessing lib tokenizer data_args raw_datasets;
  _ ← print_sizes data_args raw_datasets;
  train ← lift (dict_getitem raw_datasets "train");
  test ← lift (dict_getitem raw_datasets "test");
  mret (train, test).

(** ** create_and_prepare_model_for_dpo *)

Record ModelArgs := {
  model_name_or_path : string;
  use_4bit_quantization : bool;
  bnb_4bit_compute_dtype : string;
  bnb_4bit_quant_storage_dtype : string;
  bnb_4bit_quant_type : string;
  use_nested_quant : bool;
  use_8bit_quantization : bool;
  use_flash_attn : bool;
  use_peft_lora : bool;
  lora_alpha : Z;
  lora_dropout : QArith_base.Q;
  lora_r : Z;
  lora_target_modules : string
}.

(** [s * n] *)
Fixpoint str_repeat (s : string) (n : nat) : string :=
  match n with
  | O => EmptyString
  | S n' => s +:+ str_repeat s n'
  end.

(** [model.resize_token_embeddings(...)]: the model object remembers the
    call. *)
Definition resize_token_embeddings (model : Model) (call : ResizeCall) : Model :=
  {| pretrained_model_name_or_path := pretrained_model_name_or_path model;
     quantization_config := quantization_config model;
     model_trust_remote_code := model_trust_remote_code model;
     attn_implementation := attn_implementation model;
     torch_dtype := torch_dtype model;
     resize_calls := resize_calls model ++ [call] |}.

(** [tokenizer.chat_template = chat_template] *)
Definition set_chat_template (tokenizer : Tokenizer) (t : option string) : Tokenizer :=
  {| tokenizer_path := tokenizer_path tokenizer;
     pad_token := pad_token tokenizer;
     bos_token := bos_token tokenizer;
     eos_token := eos_token tokenizer;
     additional_special_tokens := additional_special_tokens tokenizer;
     tokenizer_trust_remote_code := tokenizer_trust_remote_code tokenizer;
     chat_template := t |}.

(** Lines 121 to 146: the quantization branch.  It yields [bnb_config] and
    [quant_storage_dtype]. *)
Definition quantization_branch (lib : Library) (args : ModelArgs)
  : M (option BitsAndBytesConfig * option dtype) :=
  let quant_storage_dtype : option dtype := None in
  if use_4bit_quantization args then
    compute_dtype ← lift (torch_getattr (bnb_4bit_compute_dtype args));
    quant_storage_dtype ← lift (torch_getattr (bnb_4bit_quant_storage_dtype args));
    let bnb_config :=
      BitsAndBytesConfig_4bit
        (use_4bit_quantization args)
        (bnb_4bit_quant_type args)
        compute_dtype
        (use_nested_quant args)
        quant_storage_dtype in
    _ ← (if bool_decide (compute_dtype = float16) && use_4bit_quantization args then
           capability ← lift (external_call (cuda_get_device_capability lib));
           let major := fst capability in
           if (8 <=? major)%nat then
             _ ← print (str_repeat "=" 80);
             _ ← print "Your GPU supports bfloat16, you can accelerate training with the argument --bf16";
             print (str_repeat "=" 80)
           else mret ()
         else mret ());
    mret (Some bnb_config, Some quant_storage_dtype)
  else if use_8bit_quantization args then
    mret (Some (BitsAndBytesConfig_8bit (use_8bit_quantization args)),
          quant_storage_dtype)
  else
    mret (None, quant_storage_dtype).

(** Lines 163 to 174: the PEFT configuration. *)
Definition peft_branch (args : ModelArgs) : option LoraConfig :=
  if use_peft_lora args then
    Some (mkLoraConfig
            (lora_alpha args)
            (lora_dropout args)
            (lora_r args)
            "none"
            "CAUSAL_LM"
            (if negb (String.eqb (lora_target_modules args) "all-linear")
             then TargetList (split "," (lora_target_modules args))
             else TargetStr (lora_target_modules args)))
  else None.

(** Lines 177 to 184: the choice of [special_tokens] and [chat_template]. *)
Definition template_branch (data_args : DataArgs)
  : option special_tokens_class * option string :=
  if String.eqb (apply_chat_template data_args) "chatml" then
    (Some Chatml, Some DEFAULT_CHATML_CHAT_TEMPLATE)
  else if String.eqb (apply_chat_template data_args) "zephyr" then
    (Some Zephyr, Some DEFAULT_ZEPHYR_CHAT_TEMPLATE)
  else (None, None).

Definition create_and_prepare_model_for_dpo {T : Type} (lib : Library)
    (args : ModelArgs) (data_args : DataArgs) (training_args : T)
  : M (Model * option LoraConfig * Tokenizer) :=
  quant ← quantization_branch lib args;
  let bnb_config := fst quant in
  let quant_storage_dtype := snd quant in
  let torch_dtype :=
    match quant_storage_dtype with
    | Some d => if is_floating_point d then d else float32
    | None => float32
    end in
  let model :=
    {| pretrained_model_name_or_path := model_name_or_path args;
       quantization_config := bnb_config;
       model_trust_remote_code := true;
       attn_implementation :=
         if use_flash_attn args then "flash_attention_2" else "eager";
       torch_dtype := torch_dtype;
       resize_calls := [] |} in
  let peft_config := peft_branch args in
  let special_tokens := fst (template_branch data_args) in
  let chat_template := snd (template_branch data_args) in
  match special_tokens with
  | Some special_tokens =>
      let tokenizer :=
        {| tokenizer_path := model_name_or_path args;
           pad_token := Some (pad_token_value special_tokens);
           bos_token := Some (bos_token_value special_tokens);
           eos_token := Some (eos_token_value special_tokens);
           additional_special_tokens := Some (special_tokens_list special_tokens);
           tokenizer_trust_remote_code := true;
           chat_template := None |} in
      let tokenizer := set_chat_template tokenizer chat_template in
      let uses_transformers_4_46 :=
        version_ge_release (transformers_version lib) [4; 46; 0]%nat in
      let uses_fsdp :=
        String.eqb
          (lower (default EmptyString (environ lib !! "ACCELERATE_USE_FSDP")))
          "true" in
      let model :=
        if bool_decide (bnb_config ≠ None) && uses_fsdp && uses_transformers_4_46 then
          resize_token_embeddings model
            {| new_num_tokens := tokenizer_len lib tokenizer;
               pad_to_multiple_of := 8;
               mean_resizing := Some false |}
        else
          resize_token_embeddings model
            {| new_num_tokens := tokenizer_len lib tokenizer;
               pad_to_multiple_of := 8;
               mean_resizing := None |} in
      mret (model, peft_config, tokenizer)
  | None =>
      let tokenizer :=
        {| tokenizer_path := model_name_or_path args;
           pad_token := None;
           bos_token := None;
           eos_token := None;
           additional_special_tokens := None;
           tokenizer_trust_remote_code := true;
           chat_template := None |} in
      mret (model, peft_config, tokenizer)
  end.

(** ** Vocabulary of the statements *)

(** The loader call a run starts with, and what that call yields. *)
Definition load_event (data_args : DataArgs) : event :=
  if is_local_data data_args
  then CallLoadFromDisk (dataset_name data_args)
  else CallLoadDataset (dataset_name data_args).

Definition load_result (lib : Library) (data_args : DataArgs) : result pyobj :=
  if is_local_data data_args
  then obj_of_loaded <$> external_call (load_from_disk lib (dataset_name data_args))
  else obj_of_loaded <$> external_call (load_dataset lib (dataset_name data_args)).

Definition is_load (e : event) : bool :=
  match e with
  | CallLoadFromDisk _ | CallLoadDataset _ => true
  | _ => false
  end.

Definition is_map (e : event) : bool :=
  match e with
  | CallMap _ => true
  | _ => false
  end.

(** The exception is the [ValueError] of line 91. *)
Definition is_ValueError (e : exn) : bool :=
  match e with
  | ValueError_split_type _ => true
  | _ => false
  end.

(** The event is a [map] or a [len] on the object [o]. *)
Definition touches (o : pyobj) (e : event) : Prop :=
  e = CallMap o ∨ e = CallLen o.

(** Removal of the system message from the start of a rendered text. *)
Definition strip_system_message (remove : bool) (text : string) : string :=
  if remove && startswith system_message text
  then slice_from (String.length system_message) text
  else text.

(** [r'] is [r] with [chosen] and [rejected] replaced by their renderings. *)
Definition row_rewritten (lib : Library) (tokenizer : Tokenizer)
    (data_args : DataArgs) (r r' : row) : Prop :=
  ∃ chosen rejected chosen_text rejected_text,
    r !! "chosen" = Some chosen ∧
    r !! "rejected" = Some rejected ∧
    tokenizer_apply_chat_template lib tokenizer chosen = Returns chosen_text ∧
    tokenizer_apply_chat_template lib tokenizer rejected = Returns rejected_text ∧
    r' !! "chosen" =
      Some (CStr (strip_system_message (remove_system_message data_args) chosen_text)) ∧
    r' !! "rejected" =
      Some (CStr (strip_system_message (remove_system_message data_args) rejected_text)).

(** [r'] agrees with [r] on every field but [chosen] and [rejected]. *)
Definition same_other_fields (r r' : row) : Prop :=
  ∀ k : string, k ≠ "chosen" → k ≠ "rejected" → r' !! k = r !! k.

(** A relation between rows, lifted to the rows of two objects position by
    position. *)
Definition rows_related (R : row → row → Prop) (o o' : pyobj) : Prop :=
  Forall2 (Forall2 R) (rows_of o) (rows_of o').

(** [r'] is [r] updated with the dict that [f] returns on [r]. *)
Definition updated_by (f : row → result row) (r r' : row) : Prop :=
  ∃ out, f r = Ok out ∧ r' = out ∪ r.

(** How a returned split comes from the selected one: unchanged without a
    template, through [map] otherwise ([mapped] says whether the source's
    guard lets the [map] run on this split). *)
Definition returned_from (lib : Library) (tokenizer : Tokenizer)
    (data_args : DataArgs) (mapped : bool) (selected returned : pyobj) : Prop :=
  if mapped
  then py_map (preprocess lib tokenizer data_args) selected = Ok returned
  else returned = selected.

Definition template_requested (data_args : DataArgs) : bool :=
  negb (String.eqb (apply_chat_template data_args) "none").

(** The sixteen spellings of the word true in upper and lower case. *)
Definition spellings_of_true : list string :=
  a ← ["t"; "T"]; b ← ["r"; "R"]; c ← ["u"; "U"]; d ← ["e"; "E"];
  [a +:+ b +:+ c +:+ d].

(** The line a size report prints. *)
Definition size_line (n : nat) : string := "Dataset size: " +:+ pretty n.

(** The events of the preprocessing phase of a run that gets through it. *)
Definition map_events (data_args : DataArgs) (sel_train sel_test : pyobj)
  : list event :=
  if template_requested data_args then
    CallMap sel_train ::
    (if py_ne (splits data_args) "none" then [CallMap sel_test] else [])
  else [].

(** The events of one size report on [o]: the [len] and, when it succeeds,
    the printed line. *)
Definition size_events (o : pyobj) : list event :=
  match py_len o with
  | Ok n => [CallLen o; CallPrint (size_line n)]
  | Raise _ => [CallLen o]
  end.

(** The number of occurrences of a character in a string. *)
Fixpoint count_char (c : ascii) (s : string) : nat :=
  match s with
  | EmptyString => 0
  | String a t => (if Ascii.eqb a c then 1 else 0) + count_char c t
  end.

(** The three lines of the bfloat16 hint. *)
Definition bf16_hint : list event :=
  [ CallPrint (str_repeat "=" 80);
    CallPrint "Your GPU supports bfloat16, you can accelerate training with the argument --bf16";
    CallPrint (str_repeat "=" 80) ].

(** ** Sample inputs *)

Definition sample_conversation (content : string) : cell :=
  CMessages [Message "user" "Hi"; Message "assistant" content].

(** A renderer for the samples: it writes the Qwen system message in front
    of the final message of a conversation. *)
Definition sample_render (c : cell) : external string :=
  match c with
  | CMessages ms =>
      match last ms with
      | Some (Message _ content) => Returns (system_message +:+ content)
      | None => Fails "empty conversation"
      end
  | _ => Fails "not a conversation"
  end.

Definition sample_row : row :=
  <["chosen" := sample_conversation "good"]>
    (<["rejected" := sample_conversation "bad"]>
       (<["id" := CInt 7]> ∅)).

Definition sample_loaded : loaded :=
  LoadedDatasetDict [("train", [sample_row]); ("test", [])].

Definition sample_dataset : pyobj := obj_of_loaded sample_loaded.

Definition sample_lib : Library :=
  {| load_from_disk := λ _, Fails "FileNotFoundError";
     load_dataset := λ _, Returns sample_loaded;
     tokenizer_apply_chat_template := λ _, sample_render;
     tokenizer_len := λ _, 1030%nat;
     cuda_get_device_capability := Returns (8, 0)%nat;
     environ := <["ACCELERATE_USE_FSDP" := "True"]> ∅;
     transformers_version := {| release := [4; 46; 1]%nat; is_prerelease := false |} |}.

Definition sample_tokenizer : Tokenizer :=
  {| tokenizer_path := "Qwen/Qwen2.5-0.5B-Instruct";
     pad_token := None;
     bos_token := None;
     eos_token := None;
     additional_special_tokens := None;
     tokenizer_trust_remote_code := true;
     chat_template := None |}.

Definition sample_data_args (s : splits_value) (template : string) : DataArgs :=
  {| dataset_name := "trl-lib/ultrafeedback_binarized";
     is_local_data := false;
     splits := s;
     apply_chat_template := template;
     remove_system_message := true |}.

Definition sample_args (use_4bit use_8bit : bool) (targets : string) : ModelArgs :=
  {| model_name_or_path := "Qwen/Qwen2.5-0.5B-Instruct";
     use_4bit_quantization := use_4bit;
     bnb_4bit_compute_dtype := "float16";
     bnb_4bit_quant_storage_dtype := "bfloat16";
     bnb_4bit_quant_type := "nf4";
     use_nested_quant := true;
     use_8bit_quantization := use_8bit;
     use_flash_attn := false;
     use_peft_lora := true;
     lora_alpha := 16;
     lora_dropout := QArith_base.Qmake 1 10;
     lora_r := 8;
     lora_target_modules := targets |}.

(** A library whose disk holds a dataset with a test split only, and
    arguments that load it. *)
Definition sample_disk_lib : Library :=
  {| load_from_disk := λ _, Returns (LoadedDatasetDict [("test", [])]);
     load_dataset := λ _, Fails "ConnectionError";
     tokenizer_apply_chat_template := λ _, sample_render;
     tokenizer_len := λ _, 1030%nat;
     cuda_get_device_capability := Fails "no CUDA device";
     environ := ∅;
     transformers_version := {| release := [4; 45; 2]%nat; is_prerelease := false |} |}.

Definition sample_disk_args : DataArgs :=
  {| dataset_name := "data/prefs";
     is_local_data := true;
     splits := SplitsList ["train"; "none"];
     apply_chat_template := "none";
     remove_system_message := false |}.

(** A row without a [chosen] field. *)
Definition sample_row_without_chosen : row :=
  <["rejected" := sample_conversation "bad"]> ∅.

(** A library whose disk holds a dataset with a first row that has no
    [chosen] field, and arguments that load and preprocess it. *)
Definition sample_broken_lib : Library :=
  {| load_from_disk :=
       λ _, Returns (LoadedDataset [sample_row_without_chosen; sample_row]);
     load_dataset := λ _, Fails "ConnectionError";
     tokenizer_apply_chat_template := λ _, sample_render;
     tokenizer_len := λ _, 1030%nat;
     cuda_get_device_capability := Fails "no CUDA device";
     environ := ∅;
     transformers_version := {| release := [4; 45; 2]%nat; is_prerelease := false |} |}.

Definition sample_broken_args : DataArgs :=
  {| dataset_name := "data/broken";
     is_local_data := true;
     splits := SplitsStr "none";
     apply_chat_template := "chatml";
     remove_system_message := true |}.

(** * Properties *)

(** ** Strings *)

Lemma startswith_app (p r : string) : startswith p (p +:+ r) = true.
Proof.
  induction p as [|a p IH]; simpl; [done|].
  by rewrite Ascii.eqb_refl.
Qed.

Lemma slice_from_app (p r : string) : slice_from (String.length p) (p +:+ r) = r.
Proof. induction p as [|a p IH]; simpl; [by destruct r | done]. Qed.

Lemma startswith_inv (p s : string) :
  startswith p s = true → s = p +:+ slice_from (String.length p) s.
Proof.
  revert s. induction p as [|a p IH]; intros s H; simpl in *.
  - by destruct s.
  - destruct s as [|b s]; [done|].
    destruct (Ascii.eqb a b) eqn:E; [|done].
    apply Ascii.eqb_eq in E as ->.
    change (String b s = String b (p +:+ slice_from (String.length p) s)).
    f_equal. by apply IH.
Qed.

Lemma startswith_iff (p s : string) :
  startswith p s = true ↔ ∃ r, s = p +:+ r.
Proof.
  split.
  - intros H. eexists. by apply startswith_inv.
  - intros [r ->]. apply startswith_app.
Qed.

Lemma length_app_string (p r : string) :
  String.length (p +:+ r) = (String.length p + String.length r)%nat.
Proof. induction p as [|a p IH]; simpl; [done | by rewrite IH]. Qed.

Lemma split_nonempty (sep : ascii) (s : string) : split sep s ≠ [].
Proof.
  destruct s as [|c t]; simpl; [done|].
  destruct (Ascii.eqb c sep); [done|]. by destruct (split sep t).
Qed.

Lemma join_split (sep : ascii) (s : string) : join sep (split sep s) = s.
Proof.
  induction s as [|c t IH]; [done|].
  simpl. destruct (Ascii.eqb c sep) eqn:E.
  - apply Ascii.eqb_eq in E as ->.
    pose proof (split_nonempty sep t).
    destruct (split sep t) as [|x xs] eqn:Hs; [done|].
    simpl in *. by rewrite IH.
  - pose proof (split_nonempty sep t).
    destruct (split sep t) as [|x xs] eqn:Hs; [done|].
    simpl in *. destruct xs; simpl in *; by rewrite <- IH.
Qed.

Lemma split_no_sep (sep : ascii) (s : string) :
  Forall (λ piece, has_char sep piece = false) (split sep s).
Proof.
  induction s as [|c t IH]; simpl.
  - by constructor.
  - destruct (Ascii.eqb c sep) eqn:E.
    + by constructor.
    + destruct (split sep t) as [|x xs].
      * constructor; [|done]. simpl. by rewrite E.
      * inversion IH; subst. constructor; [|done]. simpl. by rewrite E.
Qed.

Lemma ascii_lower_cases (c lo : ascii) :
  ascii_lower c = lo → c = lo ∨ ascii_lower c ≠ c.
Proof.
  intros <-. destruct (decide (ascii_lower c = c)) as [->|]; auto.
Qed.

Lemma ascii_lower_preimage (c l : ascii) :
  ascii_lower c = l →
  c = l ∨ c = Ascii.ascii_of_nat (Ascii.nat_of_ascii l - 32).
Proof.
  unfold ascii_lower. intros H.
  destruct ((65 <=? Ascii.nat_of_ascii c)%nat && (Ascii.nat_of_ascii c <=? 90)%nat)
    eqn:E; [|by left].
  right. apply andb_true_iff in E as [E1%Nat.leb_le E2%Nat.leb_le].
  subst l. rewrite Ascii.nat_ascii_embedding by lia.
  replace (Ascii.nat_of_ascii c + 32 - 32)%nat with (Ascii.nat_of_ascii c) by lia.
  by rewrite Ascii.ascii_nat_embedding.
Qed.

(** [s.lower() == "true"] holds for the sixteen spellings and for nothing
    else. *)
Lemma lower_true_iff (s : string) :
  lower s = "true" ↔ s ∈ spellings_of_true.
Proof.
  split.
  - destruct s as [|a [|b [|c [|d [|e s]]]]]; simpl; try discriminate.
    intros H. injection H as Ha Hb Hc Hd.
    apply ascii_lower_preimage in Ha, Hb, Hc, Hd.
    destruct Ha as [-> | ->], Hb as [-> | ->], Hc as [-> | ->], Hd as [-> | ->];
      vm_compute; apply list_elem_of_In; simpl; tauto.
  - intros H. apply list_elem_of_In in H. vm_compute in H.
    repeat (destruct H as [<- | H]; [reflexivity|]). done.
Qed.

(** ** Runs *)

Lemma outcome_bind {A B} (m : M A) (f : A → M B) :
  outcome (m ≫= f) =
  match outcome m with
  | Ok a => outcome (f a)
  | Raise e => Raise e
  end.
Proof.
  destruct m as [t [a|e]]; simpl; [|done].
  unfold outcome. simpl. by destruct (f a).
Qed.

Lemma trace_bind {A B} (m : M A) (f : A → M B) :
  trace (m ≫= f) =
  trace m ++
  match outcome m with
  | Ok a => trace (f a)
  | Raise e => []
  end.
Proof.
  destruct m as [t [a|e]]; simpl.
  - unfold trace. simpl. by destruct (f a).
  - unfold trace. simpl. by rewrite app_nil_r.
Qed.

Lemma outcome_lift {A} (r : result A) : outcome (lift r) = r.
Proof. done. Qed.

Lemma trace_lift {A} (r : result A) : trace (lift r) = [].
Proof. done. Qed.

Lemma outcome_mret {A} (a : A) : outcome (mret a : M A) = Ok a.
Proof. done. Qed.

Lemma trace_mret {A} (a : A) : trace (mret a : M A) = [].
Proof. done. Qed.

(** ** create_and_prepare_model_for_dpo *)

(** The quantization branch, case by case. *)
Lemma quantization_branch_outcome (lib : Library) (args : ModelArgs) bnb qsd :
  outcome (quantization_branch lib args) = Ok (bnb, qsd) →
  (use_4bit_quantization args = true ∧
   ∃ compute_dtype storage_dtype,
     torch_getattr (bnb_4bit_compute_dtype args) = Ok compute_dtype ∧
     torch_getattr (bnb_4bit_quant_storage_dtype args) = Ok storage_dtype ∧
     bnb = Some (BitsAndBytesConfig_4bit true (bnb_4bit_quant_type args)
                   compute_dtype (use_nested_quant args) storage_dtype) ∧
     qsd = Some storage_dtype) ∨
  (use_4bit_quantization args = false ∧ use_8bit_quantization args = true ∧
   bnb = Some (BitsAndBytesConfig_8bit true) ∧ qsd = None) ∨
  (use_4bit_quantization args = false ∧ use_8bit_quantization args = false ∧
   bnb = None ∧ qsd = None).
Proof.
  unfold quantization_branch.
  destruct (use_4bit_quantization args) eqn:E4.
  - rewrite !outcome_bind, outcome_lift.
    destruct (torch_getattr (bnb_4bit_compute_dtype args)) as [cd|] eqn:Hcd; [|done].
    rewrite !outcome_bind, outcome_lift.
    destruct (torch_getattr (bnb_4bit_quant_storage_dtype args)) as [sd|] eqn:Hsd; [|done].
    rewrite outcome_bind.
    match goal with |- match ?o with _ => _ end = _ → _ => destruct o; [|done] end.
    rewrite outcome_mret. intros [= <- <-]. left. eauto 10.
  - destruct (use_8bit_quantization args) eqn:E8.
    + rewrite outcome_mret. intros [= <- <-]. right; left. eauto.
    + rewrite outcome_mret. intros [= <- <-]. right; right. eauto.
Qed.

(** What a successful run returns, in terms of the outcome of the
    quantization branch. *)
Lemma create_and_prepare_model_for_dpo_outcome {T} (lib : Library)
    (args : ModelArgs) (data_args : DataArgs) (training_args : T)
    model peft_config tokenizer :
  outcome (create_and_prepare_model_for_dpo lib args data_args training_args)
    = Ok (model, peft_config, tokenizer) →
  ∃ bnb qsd,
    outcome (quantization_branch lib args) = Ok (bnb, qsd) ∧
    quantization_config model = bnb ∧
    pretrained_model_name_or_path model = model_name_or_path args ∧
    peft_config = peft_branch args ∧
    match fst (template_branch data_args) with
    | Some special_tokens =>
        tokenizer =
          {| tokenizer_path := model_name_or_path args;
             pad_token := Some (pad_token_value special_tokens);
             bos_token := Some (bos_token_value special_tokens);
             eos_token := Some (eos_token_value special_tokens);
             additional_special_tokens := Some (special_tokens_list special_tokens);
             tokenizer_trust_remote_code := true;
             chat_template := snd (template_branch data_args) |} ∧
        resize_calls model =
          [ {| new_num_tokens := tokenizer_len lib tokenizer;
               pad_to_multiple_of := 8;
               mean_resizing :=
                 if bool_decide (bnb ≠ None)
                    && String.eqb
                         (lower (default EmptyString
                                   (environ lib !! "ACCELERATE_USE_FSDP")))
                         "true"
                    && version_ge_release (transformers_version lib) [4; 46; 0]%nat
                 then Some false else None |} ]
    | None =>
        tokenizer =
          {| tokenizer_path := model_name_or_path args;
             pad_token := None;
             bos_token := None;
             eos_token := None;
             additional_special_tokens := None;
             tokenizer_trust_remote_code := true;
             chat_template := None |} ∧
        resize_calls model = []
    end.
Proof.
  unfold create_and_prepare_model_for_dpo.
  rewrite outcome_bind.
  destruct (outcome (quantization_branch lib args)) as [[bnb qsd]|] eqn:Hq; [|done].
  simpl fst; simpl snd.
  destruct (fst (template_branch data_args)) as [st|] eqn:Hst.
  - rewrite outcome_mret; intros [= <- <- <-]; exists bnb, qsd.
    split_and!; try done; by case_match.
  - rewrite outcome_mret; intros [= <- <- <-]; exists bnb, qsd; simpl; eauto 10.
Qed.

Lemma template_branch_chatml (data_args : DataArgs) :
  apply_chat_template data_args = "chatml" →
  template_branch data_args = (Some Chatml, Some DEFAULT_CHATML_CHAT_TEMPLATE).
Proof. unfold template_branch. by intros ->. Qed.

Lemma template_branch_zephyr (data_args : DataArgs) :
  apply_chat_template data_args = "zephyr" →
  template_branch data_args = (Some Zephyr, Some DEFAULT_ZEPHYR_CHAT_TEMPLATE).
Proof. unfold template_branch. by intros ->. Qed.

Lemma template_branch_other (data_args : DataArgs) :
  apply_chat_template data_args ≠ "chatml" →
  apply_chat_template data_args ≠ "zephyr" →
  template_branch data_args = (None, None).
Proof.
  unfold template_branch. intros H1 H2.
  destruct (String.eqb_spec (apply_chat_template data_args) "chatml"); [done|].
  by destruct (String.eqb_spec (apply_chat_template data_args) "zephyr").
Qed.

(** The run returns whenever the two dtype names exist in [torch] and, for a
    float16 compute dtype, the device capability can be read; without 4-bit
    quantization it always returns. *)
Lemma create_and_prepare_model_for_dpo_returns {T} (lib : Library)
    (args : ModelArgs) (data_args : DataArgs) (training_args : T) :
  (use_4bit_quantization args = false ∨
   ∃ compute_dtype storage_dtype,
     torch_getattr (bnb_4bit_compute_dtype args) = Ok compute_dtype ∧
     torch_getattr (bnb_4bit_quant_storage_dtype args) = Ok storage_dtype ∧
     (compute_dtype = float16 →
      ∃ capability, cuda_get_device_capability lib = Returns capability)) →
  ∃ returned,
    outcome (create_and_prepare_model_for_dpo lib args data_args training_args)
      = Ok returned.
Proof.
  intros H. unfold create_and_prepare_model_for_dpo. rewrite outcome_bind.
  assert (∃ q, outcome (quantization_branch lib args) = Ok q) as [q ->].
  { unfold quantization_branch.
    destruct (use_4bit_quantization args) eqn:E4.
    - destruct H as [|(cd & sd & Hcd & Hsd & Hcap)]; [done|].
      rewrite !outcome_bind, outcome_lift, Hcd.
      rewrite !outcome_bind, outcome_lift, Hsd.
      rewrite outcome_bind.
      destruct (decide (cd = float16)) as [->|Hne].
      + destruct (Hcap eq_refl) as [cap ->].
        rewrite bool_decide_eq_true_2 by done. cbn [andb].
        rewrite outcome_bind, outcome_lift. cbn [external_call].
        destruct (8 <=? cap.1)%nat; rewrite outcome_mret; eauto.
      + rewrite bool_decide_eq_false_2 by done. cbn [andb].
        rewrite !outcome_mret. eauto.
    - destruct (use_8bit_quantization args); rewrite outcome_mret; eauto. }
  destruct (fst (template_branch data_args)); rewrite outcome_mret; eauto.
Qed.

(** C3: quantization is optional and the two kinds exclude each other.  With
    [use_4bit_quantization] the model is loaded with the 4-bit config built
    from the quant type, the compute dtype looked up by name, the nested-quant
    flag and the storage dtype looked up by name, whatever
    [use_8bit_quantization] says; otherwise with [use_8bit_quantization] it is
    loaded with [BitsAndBytesConfig(load_in_8bit=True)]; otherwise
    [quantization_config] is [None]. *)
Theorem C3_quantization_config {T} (lib : Library) (args : ModelArgs)
    (data_args : DataArgs) (training_args : T) model peft_config tokenizer :
  outcome (create_and_prepare_model_for_dpo lib args data_args training_args)
    = Ok (model, peft_config, tokenizer) →
  (use_4bit_quantization args = true →
   ∃ compute_dtype storage_dtype,
     torch_getattr (bnb_4bit_compute_dtype args) = Ok compute_dtype ∧
     torch_getattr (bnb_4bit_quant_storage_dtype args) = Ok storage_dtype ∧
     quantization_config model =
       Some (BitsAndBytesConfig_4bit true (bnb_4bit_quant_type args)
               compute_dtype (use_nested_quant args) storage_dtype)) ∧
  (use_4bit_quantization args = false → use_8bit_quantization args = true →
   quantization_config model = Some (BitsAndBytesConfig_8bit true)) ∧
  (use_4bit_quantization args = false → use_8bit_quantization args = false →
   quantization_config model = None).
Proof.
  intros H.
  apply create_and_prepare_model_for_dpo_outcome in H
    as (bnb & qsd & Hq & -> & _).
  apply quantization_branch_outcome in Hq
    as [(E4 & cd & sd & Hcd & Hsd & -> & _) | [(E4 & E8 & -> & _) | (E4 & E8 & -> & _)]];
    rewrite E4; split_and!; try done; try congruence.
  intros _. eauto.
Qed.

Lemma C3_quantization_config_witness :
  match outcome (create_and_prepare_model_for_dpo sample_lib
                   (sample_args true true "q_proj,v_proj")
                   (sample_data_args (SplitsStr "train,test") "chatml") ()) with
  | Ok (model, _, _) =>
      quantization_config model =
        Some (BitsAndBytesConfig_4bit true "nf4" float16 true bfloat16)
  | Raise _ => False
  end.
Proof.
  destruct (outcome _) as [[[model peft_config] tokenizer]|e] eqn:H;
    [|vm_compute in H; discriminate].
  destruct (C3_quantization_config _ _ _ _ _ _ _ H) as (H4 & _ & _).
  destruct (H4 eq_refl) as (cd & sd & Hcd & Hsd & Hm).
  vm_compute in Hcd, Hsd. injection Hcd as <-. injection Hsd as <-.
  exact Hm.
Defined.

(** C4: with the template "chatml" the tokenizer is created with the pad, bos
    and eos values of [ChatmlSpecialTokens], its whole list as additional
    special tokens, and gets [DEFAULT_CHATML_CHAT_TEMPLATE]; with "zephyr"
    the same with [ZephyrSpecialTokens] and [DEFAULT_ZEPHYR_CHAT_TEMPLATE];
    with any other value it is loaded from the model path with no special
    token and no chat template set. *)
Theorem C4_tokenizer_configuration {T} (lib : Library) (args : ModelArgs)
    (data_args : DataArgs) (training_args : T) model peft_config tokenizer :
  outcome (create_and_prepare_model_for_dpo lib args data_args training_args)
    = Ok (model, peft_config, tokenizer) →
  (apply_chat_template data_args = "chatml" →
   tokenizer =
     {| tokenizer_path := model_name_or_path args;
        pad_token := Some (ChatmlSpecialTokens.value ChatmlSpecialTokens.pad_token);
        bos_token := Some (ChatmlSpecialTokens.value ChatmlSpecialTokens.bos_token);
        eos_token := Some (ChatmlSpecialTokens.value ChatmlSpecialTokens.eos_token);
        additional_special_tokens := Some ChatmlSpecialTokens.list;
        tokenizer_trust_remote_code := true;
        chat_template := Some DEFAULT_CHATML_CHAT_TEMPLATE |}) ∧
  (apply_chat_template data_args = "zephyr" →
   tokenizer =
     {| tokenizer_path := model_name_or_path args;
        pad_token := Some (ZephyrSpecialTokens.value ZephyrSpecialTokens.pad_token);
        bos_token := Some (ZephyrSpecialTokens.value ZephyrSpecialTokens.bos_token);
        eos_token := Some (ZephyrSpecialTokens.value ZephyrSpecialTokens.eos_token);
        additional_special_tokens := Some ZephyrSpecialTokens.list;
        tokenizer_trust_remote_code := true;
        chat_template := Some DEFAULT_ZEPHYR_CHAT_TEMPLATE |}) ∧
  (apply_chat_template data_args ≠ "chatml" →
   apply_chat_template data_args ≠ "zephyr" →
   tokenizer =
     {| tokenizer_path := model_name_or_path args;
        pad_token := None;
        bos_token := None;
        eos_token := None;
        additional_special_tokens := None;
        tokenizer_trust_remote_code := true;
        chat_template := None |}).
Proof.
  intros H.
  apply create_and_prepare_model_for_dpo_outcome in H
    as (bnb & qsd & _ & _ & _ & _ & Htok).
  split_and!.
  - intros E. rewrite (template_branch_chatml _ E) in Htok. by destruct Htok.
  - intros E. rewrite (template_branch_zephyr _ E) in Htok. by destruct Htok.
  - intros E1 E2. rewrite (template_branch_other _ E1 E2) in Htok. by destruct Htok.
Qed.

Lemma C4_tokenizer_configuration_witness :
  match outcome (create_and_prepare_model_for_dpo sample_lib
                   (sample_args false false "all-linear")
                   (sample_data_args (SplitsStr "train,test") "chatml") ()) with
  | Ok (_, _, tokenizer) =>
      pad_token tokenizer = Some "<|endoftext|>" ∧
      bos_token tokenizer = Some "None" ∧
      eos_token tokenizer = Some "<|im_end|>" ∧
      additional_special_tokens tokenizer =
        Some ["<|im_start|>user"; "<|im_start|>assistant"; "<|im_start|>system";
              "<|im_end|>"; "None"; "<|endoftext|>"] ∧
      chat_template tokenizer = Some DEFAULT_CHATML_CHAT_TEMPLATE
  | Raise _ => False
  end.
Proof.
  destruct (outcome _) as [[[model peft_config] tokenizer]|e] eqn:H;
    [|vm_compute in H; discriminate].
  destruct (C4_tokenizer_configuration _ _ _ _ _ _ _ H) as (Hchatml & _ & _).
  rewrite (Hchatml eq_refl). repeat split.
Defined.

Lemma resize_condition (lib : Library) (bnb : option BitsAndBytesConfig) :
  bool_decide (bnb ≠ None)
  && String.eqb
       (lower (default EmptyString (environ lib !! "ACCELERATE_USE_FSDP")))
       "true"
  && version_ge_release (transformers_version lib) [4; 46; 0]%nat = true
  ↔ bnb ≠ None ∧
    default EmptyString (environ lib !! "ACCELERATE_USE_FSDP") ∈ spellings_of_true ∧
    version_ge_release (transformers_version lib) [4; 46; 0]%nat = true.
Proof.
  rewrite !andb_true_iff, bool_decide_eq_true, String.eqb_eq, lower_true_iff.
  tauto.
Qed.

(** C7: when the template is "chatml" or "zephyr" the model's embeddings are
    resized once, to the length of the new tokenizer and with
    [pad_to_multiple_of=8]; [mean_resizing=False] is passed exactly when a
    quantization config was built, [ACCELERATE_USE_FSDP] spells true in any
    mix of cases and the transformers version is at least 4.46.0, and is not
    passed otherwise.  With any other template there is no resize. *)
Theorem C7_embedding_resize {T} (lib : Library) (args : ModelArgs)
    (data_args : DataArgs) (training_args : T) model peft_config tokenizer :
  outcome (create_and_prepare_model_for_dpo lib args data_args training_args)
    = Ok (model, peft_config, tokenizer) →
  (apply_chat_template data_args = "chatml" ∨
   apply_chat_template data_args = "zephyr" →
   ∃ mean,
     resize_calls model =
       [ {| new_num_tokens := tokenizer_len lib tokenizer;
            pad_to_multiple_of := 8;
            mean_resizing := mean |} ] ∧
     (mean = Some false ∨ mean = None) ∧
     (mean = Some false ↔
      quantization_config model ≠ None ∧
      default EmptyString (environ lib !! "ACCELERATE_USE_FSDP")
        ∈ spellings_of_true ∧
      version_ge_release (transformers_version lib) [4; 46; 0]%nat = true)) ∧
  (apply_chat_template data_args ≠ "chatml" →
   apply_chat_template data_args ≠ "zephyr" →
   resize_calls model = []).
Proof.
  intros H.
  apply create_and_prepare_model_for_dpo_outcome in H
    as (bnb & qsd & _ & -> & _ & _ & Htok).
  split.
  - intros E.
    assert (∃ st, fst (template_branch data_args) = Some st) as [st Hst].
    { destruct E as [E|E];
        [rewrite (template_branch_chatml _ E) | rewrite (template_branch_zephyr _ E)];
        eauto. }
    rewrite Hst in Htok. destruct Htok as [_ ->].
    eexists. split; [reflexivity|].
    pose proof (resize_condition lib bnb) as Hc.
    destruct (_ && _ && _); split; auto.
    + split; [intros _; by apply Hc | done].
    + split; [done | intros Hcond; apply Hc in Hcond; done].
  - intros E1 E2. rewrite (template_branch_other _ E1 E2) in Htok.
    by destruct Htok.
Qed.

Lemma C7_embedding_resize_witness :
  match outcome (create_and_prepare_model_for_dpo sample_lib
                   (sample_args false true "all-linear")
                   (sample_data_args (SplitsStr "train,test") "zephyr") ()) with
  | Ok (model, _, _) =>
      resize_calls model =
        [ {| new_num_tokens := 1030;
             pad_to_multiple_of := 8;
             mean_resizing := Some false |} ]
  | Raise _ => False
  end.
Proof.
  destruct (outcome _) as [[[model peft_config] tokenizer]|e] eqn:H;
    [|vm_compute in H; discriminate].
  destruct (C7_embedding_resize _ _ _ _ _ _ _ H) as (Hresize & _).
  destruct (Hresize (or_intror eq_refl)) as (mean & -> & _ & Hmean).
  destruct (create_and_prepare_model_for_dpo_outcome _ _ _ _ _ _ _ H)
    as (bnb & qsd & Hq & Hm & _).
  vm_compute in Hq. injection Hq as <- <-.
  f_equal. f_equal. apply Hmean. split_and!.
  - by rewrite Hm.
  - vm_compute. apply list_elem_of_In. simpl. tauto.
  - reflexivity.
Defined.

(** C8: the returned [peft_config] is not [None] exactly when
    [use_peft_lora] is set, and then it is the [LoraConfig] of the given
    [lora_alpha], [lora_dropout] and [r] with [bias="none"],
    [task_type="CAUSAL_LM"] and, as [target_modules], the pieces of
    [lora_target_modules] between its commas, or the string itself when it is
    "all-linear". *)
Theorem C8_peft_config {T} (lib : Library) (args : ModelArgs)
    (data_args : DataArgs) (training_args : T) model peft_config tokenizer :
  outcome (create_and_prepare_model_for_dpo lib args data_args training_args)
    = Ok (model, peft_config, tokenizer) →
  (peft_config ≠ None ↔ use_peft_lora args = true) ∧
  (use_peft_lora args = true →
   ∃ target_modules,
     peft_config =
       Some (mkLoraConfig (lora_alpha args) (lora_dropout args) (lora_r args)
               "none" "CAUSAL_LM" target_modules) ∧
     (lora_target_modules args = "all-linear" →
      target_modules = TargetStr "all-linear") ∧
     (lora_target_modules args ≠ "all-linear" →
      ∃ pieces,
        target_modules = TargetList pieces ∧
        pieces = split "," (lora_target_modules args) ∧
        join "," pieces = lora_target_modules args ∧
        Forall (λ piece, has_char "," piece = false) pieces)).
Proof.
  intros H.
  apply create_and_prepare_model_for_dpo_outcome in H
    as (bnb & qsd & _ & _ & _ & -> & _).
  unfold peft_branch. destruct (use_peft_lora args); split; try done.
  intros _. eexists. split; [reflexivity|].
  destruct (String.eqb_spec (lora_target_modules args) "all-linear") as [E|E];
    simpl; split; try done.
  - intros _. by rewrite E.
  - intros _. eexists. split_and!; [done | done | apply join_split | apply split_no_sep].
Qed.

Lemma C8_peft_config_witness :
  match outcome (create_and_prepare_model_for_dpo sample_lib
                   (sample_args false false "q_proj,k_proj,v_proj")
                   (sample_data_args (SplitsStr "train,test") "none") ()) with
  | Ok (_, peft_config, _) =>
      peft_config =
        Some (mkLoraConfig 16 (QArith_base.Qmake 1 10) 8 "none" "CAUSAL_LM"
                (TargetList ["q_proj"; "k_proj"; "v_proj"]))
  | Raise _ => False
  end.
Proof.
  destruct (outcome _) as [[[model peft_config] tokenizer]|e] eqn:H;
    [|vm_compute in H; discriminate].
  destruct (C8_peft_config _ _ _ _ _ _ _ H) as (_ & Hlora).
  destruct (Hlora eq_refl) as (tm & -> & _ & Hsplit).
  destruct Hsplit as (pieces & -> & -> & _); [done|].
  reflexivity.
Defined.

(** ** to_apply_chat_template *)

Lemma to_apply_chat_template_eq (lib : Library) (tokenizer : Tokenizer)
    (messages : cell) (remove : bool) (text : string) :
  tokenizer_apply_chat_template lib tokenizer messages = Returns text →
  to_apply_chat_template lib messages tokenizer remove
    = Ok (strip_system_message remove text).
Proof.
  intros H. unfold to_apply_chat_template, strip_system_message. rewrite H.
  simpl. by destruct remove, (startswith system_message text).
Qed.

Lemma to_apply_chat_template_Ok (lib : Library) (tokenizer : Tokenizer)
    (messages : cell) (remove : bool) (out : string) :
  to_apply_chat_template lib messages tokenizer remove = Ok out →
  ∃ text,
    tokenizer_apply_chat_template lib tokenizer messages = Returns text ∧
    out = strip_system_message remove text.
Proof.
  intros H.
  destruct (tokenizer_apply_chat_template lib tokenizer messages) as [text|w] eqn:E.
  - rewrite (to_apply_chat_template_eq _ _ _ _ _ E) in H.
    injection H as <-. eauto.
  - unfold to_apply_chat_template in H. rewrite E in H. done.
Qed.

(** C10: with [remove_system_message] set, the Qwen system message is cut
    off the rendered text exactly when the text starts with it, and the text
    is returned as rendered otherwise; with the flag unset the result is the
    rendering itself.  A system message that is not at the start (also a
    second one behind the first) stays in the text. *)
Theorem C10_system_message_strip (lib : Library) (tokenizer : Tokenizer)
    (messages : cell) (text : string) :
  tokenizer_apply_chat_template lib tokenizer messages = Returns text →
  to_apply_chat_template lib messages tokenizer false = Ok text ∧
  (∃ out,
     to_apply_chat_template lib messages tokenizer true = Ok out ∧
     (out ≠ text ↔ startswith system_message text = true) ∧
     (startswith system_message text = true ↔ ∃ rest, text = system_message +:+ rest) ∧
     (∀ rest, text = system_message +:+ rest → out = rest) ∧
     (startswith system_message text = false → out = text)) ∧
  (∀ before after,
     text = before +:+ system_message +:+ after →
     startswith system_message text = false →
     to_apply_chat_template lib messages tokenizer true = Ok text).
Proof.
  intros H. split_and!.
  - by rewrite (to_apply_chat_template_eq _ _ _ _ _ H).
  - rewrite (to_apply_chat_template_eq _ _ _ _ _ H).
    eexists. split; [reflexivity|].
    unfold strip_system_message. cbn [andb].
    destruct (startswith system_message text) eqn:E.
    + apply startswith_inv in E as Htext.
      refine (conj _ (conj _ (conj _ _))).
      * split; [done|]. intros _ Heq.
        apply (f_equal String.length) in Htext.
        rewrite length_app_string, Heq in Htext. vm_compute in Htext. lia.
      * split; [intros _; eauto | done].
      * intros rest ->. apply slice_from_app.
      * done.
    + refine (conj _ (conj _ (conj _ _))).
      * split; [by intros Hne | done].
      * split; [done | intros [rest ->]; by rewrite startswith_app in E].
      * intros rest ->. by rewrite startswith_app in E.
      * done.
  - intros before after _ E.
    rewrite (to_apply_chat_template_eq _ _ _ _ _ H).
    unfold strip_system_message. by rewrite E.
Qed.

Lemma C10_system_message_strip_witness :
  to_apply_chat_template sample_lib (sample_conversation "good")
    sample_tokenizer true = Ok "good" ∧
  to_apply_chat_template sample_lib (sample_conversation "good")
    sample_tokenizer false = Ok (system_message +:+ "good").
Proof.
  destruct (C10_system_message_strip sample_lib sample_tokenizer
              (sample_conversation "good") (system_message +:+ "good") eq_refl)
    as (Hfalse & (out & Htrue & _ & _ & Hcut & _) & _).
  split; [|exact Hfalse].
  rewrite Htrue. f_equal. by apply Hcut.
Defined.

(** ** map and preprocess *)

Lemma dataset_map_Ok (f : row → result row) (rows rows' : list row) :
  dataset_map f rows = Ok rows' → Forall2 (updated_by f) rows rows'.
Proof.
  revert rows'. induction rows as [|r rows IH]; simpl; intros rows' H.
  - injection H as <-. constructor.
  - destruct (f r) as [out|] eqn:Hf; simpl in H; [|done].
    destruct (dataset_map f rows) as [rest|] eqn:Hm; simpl in H; [|done].
    injection H as <-. constructor; [|by apply IH].
    by exists out.
Qed.

Lemma datasetdict_map_Ok (f : row → result row) (d d' : list (string * list row)) :
  datasetdict_map f d = Ok d' →
  Forall2 (λ kv kv', kv.1 = kv'.1 ∧ Forall2 (updated_by f) kv.2 kv'.2) d d'.
Proof.
  revert d'. induction d as [|[k rows] d IH]; simpl; intros d' H.
  - injection H as <-. constructor.
  - destruct (dataset_map f rows) as [rows'|] eqn:Hm; simpl in H; [|done].
    destruct (datasetdict_map f d) as [rest|] eqn:Hd; simpl in H; [|done].
    injection H as <-. constructor; [|by apply IH].
    split; [done|]. by apply dataset_map_Ok.
Qed.

(** A successful [map] keeps the shape of its receiver and updates every
    row; its result is again a [Dataset] or a [DatasetDict]. *)
Lemma py_map_Ok (f : row → result row) (o o' : pyobj) :
  py_map f o = Ok o' →
  rows_related (updated_by f) o o' ∧ (∃ n, py_len o' = Ok n) ∧ o' ≠ PNone.
Proof.
  destruct o as [|xs|rows|d]; simpl; try done.
  - destruct (dataset_map f rows) as [rows'|] eqn:Hm; simpl; [|done].
    intros [= <-]. split_and!; [|by eexists|done].
    unfold rows_related. simpl. constructor; [|constructor].
    by apply dataset_map_Ok.
  - destruct (datasetdict_map f d) as [d'|] eqn:Hd; simpl; [|done].
    intros [= <-]. split_and!; [|by eexists|done].
    unfold rows_related. simpl. apply Forall2_fmap.
    eapply Forall2_impl; [by apply datasetdict_map_Ok|].
    by intros ?? [_ ?].
Qed.

Lemma preprocess_Ok (lib : Library) (tokenizer : Tokenizer)
    (data_args : DataArgs) (r out : row) :
  preprocess lib tokenizer data_args r = Ok out →
  ∃ chosen rejected chosen_text rejected_text,
    r !! "chosen" = Some chosen ∧
    r !! "rejected" = Some rejected ∧
    tokenizer_apply_chat_template lib tokenizer chosen = Returns chosen_text ∧
    tokenizer_apply_chat_template lib tokenizer rejected = Returns rejected_text ∧
    out =
      <["chosen" :=
          CStr (strip_system_message (remove_system_message data_args) chosen_text)]>
        (<["rejected" :=
             CStr (strip_system_message (remove_system_message data_args)
                     rejected_text)]> ∅).
Proof.
  unfold preprocess, row_getitem. intros H.
  destruct (r !! "chosen") as [c|] eqn:Hc; simpl in H; [|done].
  destruct (to_apply_chat_template lib c tokenizer _) as [tc|] eqn:Htc;
    simpl in H; [|done].
  destruct (r !! "rejected") as [rj|] eqn:Hr; simpl in H; [|done].
  destruct (to_apply_chat_template lib rj tokenizer _) as [tr|] eqn:Htr;
    simpl in H; [|done].
  injection H as <-.
  apply to_apply_chat_template_Ok in Htc as (text1 & H1 & ->).
  apply to_apply_chat_template_Ok in Htr as (text2 & H2 & ->).
  by exists c, rj, text1, text2.
Qed.

Lemma preprocess_update (lib : Library) (tokenizer : Tokenizer)
    (data_args : DataArgs) (r r' : row) :
  updated_by (preprocess lib tokenizer data_args) r r' →
  row_rewritten lib tokenizer data_args r r' ∧ same_other_fields r r'.
Proof.
  intros (out & Hout & ->).
  apply preprocess_Ok in Hout as (c & rj & tc & tr & Hc & Hr & H1 & H2 & ->).
  split.
  - exists c, rj, tc, tr. split_and!; try done.
    + apply lookup_union_Some_l. apply lookup_insert_eq.
    + apply lookup_union_Some_l.
      rewrite lookup_insert_ne by done. apply lookup_insert_eq.
  - intros k Hk1 Hk2. apply lookup_union_r.
    rewrite !lookup_insert_ne by done. apply lookup_empty.
Qed.

Lemma rows_related_impl (R R' : row → row → Prop) (o o' : pyobj) :
  (∀ r r', R r r' → R' r r') → rows_related R o o' → rows_related R' o o'.
Proof.
  intros HR H. unfold rows_related in *.
  eapply Forall2_impl; [exact H|].
  intros l l' Hl. eapply Forall2_impl; [exact Hl | exact HR].
Qed.

Lemma rows_related_refl (R : row → row → Prop) (o : pyobj) :
  (∀ r, R r r) → rows_related R o o.
Proof.
  intros HR. unfold rows_related.
  apply Forall_Forall2_diag, Forall_forall. intros l _.
  apply Forall_Forall2_diag, Forall_forall. auto.
Qed.

(** ** The phases of create_dpo_datasets *)

Lemma bind_Ok {A B} (t : list event) (a : A) (f : A → M B) :
  mbind (M := M) f (t, Ok a) = (t ++ trace (f a), outcome (f a)).
Proof. unfold mbind, M_bind, trace, outcome. by destruct (f a). Qed.

Lemma bind_Raise {A B} (t : list event) (e : exn) (f : A → M B) :
  mbind (M := M) f (t, Raise e) = (t, Raise e).
Proof. done. Qed.

Lemma bind_lift_Ok {A B} (a : A) (f : A → M B) :
  mbind (M := M) f (lift (Ok a)) = f a.
Proof. unfold lift. rewrite bind_Ok. by destruct (f a). Qed.

Lemma call_loader_run (lib : Library) (data_args : DataArgs) :
  call_loader lib
    (if is_local_data data_args then LoadFromDisk else LoadDataset)
    (dataset_name data_args)
  = ([load_event data_args], load_result lib data_args).
Proof.
  unfold call_loader, load_event, load_result, emit.
  destruct (is_local_data data_args); by rewrite bind_Ok.
Qed.

Lemma call_map_run (f : row → result row) (o : pyobj) :
  call_map f o = ([CallMap o], py_map f o).
Proof. unfold call_map, emit. by rewrite bind_Ok. Qed.

Lemma call_len_run (o : pyobj) : call_len o = ([CallLen o], py_len o).
Proof. unfold call_len, emit. by rewrite bind_Ok. Qed.

Lemma load_result_Ok (lib : Library) (data_args : DataArgs) (dataset : pyobj) :
  load_result lib data_args = Ok dataset →
  ∃ l, dataset = obj_of_loaded l.
Proof.
  unfold load_result.
  destruct (is_local_data data_args);
    destruct (_ lib (dataset_name data_args)) as [l|]; simpl; try done;
    intros [= <-]; eauto.
Qed.

Lemma py_len_loaded (l : loaded) : ∃ n, py_len (obj_of_loaded l) = Ok n.
Proof. destruct l; simpl; eauto. Qed.

Lemma py_getitem_Ok (obj : pyobj) (key : string) (v : pyobj) :
  py_getitem obj key = Ok v → v ≠ PNone ∧ ∃ n, py_len v = Ok n.
Proof.
  destruct obj as [|xs|rows|d]; simpl; try done.
  - destruct (column key rows); [|done]. intros [= <-]. eauto.
  - destruct (assoc_lookup key d); [|done]. intros [= <-]. eauto.
Qed.

Lemma py_getitem_not_ValueError (obj : pyobj) (key : string) (s : splits_value) :
  py_getitem obj key ≠ Raise (ValueError_split_type s).
Proof.
  destruct obj as [|xs|rows|d]; simpl; try done.
  - by destruct (column key rows).
  - by destruct (assoc_lookup key d).
Qed.

(** What a successful selection holds: with "none" in [splits] the whole
    dataset and [None]; without it, under each of the keys "train" and "test"
    that is in [splits], that split of the dataset, and nothing under a key
    that is not. *)
Lemma select_splits_Ok (dataset : pyobj) (s : splits_value)
    (raw : gmap string pyobj) :
  select_splits dataset s = Ok raw →
  (py_in "train" s = true ∨ py_in "test" s = true ∨ py_in "none" s = true) ∧
  (py_in "none" s = true →
   raw !! "train" = Some dataset ∧ raw !! "test" = Some PNone) ∧
  (py_in "none" s = false →
   raw !! "train" =
     (if py_in "train" s
      then match py_getitem dataset "train" with Ok v => Some v | Raise _ => None end
      else None) ∧
   raw !! "test" =
     (if py_in "test" s
      then match py_getitem dataset "test" with Ok v => Some v | Raise _ => None end
      else None) ∧
   (py_in "train" s = true → ∃ v, py_getitem dataset "train" = Ok v) ∧
   (py_in "test" s = true → ∃ v, py_getitem dataset "test" = Ok v)).
Proof.
  unfold select_splits.
  destruct (py_in "train" s) eqn:Etrain, (py_in "test" s) eqn:Etest,
    (py_in "none" s) eqn:Enone;
    repeat
      match goal with
      | |- context [py_getitem dataset ?k] =>
          destruct (py_getitem dataset k) eqn:?; simpl; [|done]
      end;
    simpl; try done; intros [= <-];
    (split; [by auto|]); (split; [|]); try done; intros _;
    rewrite ?lookup_insert_eq, ?lookup_insert_ne, ?lookup_insert_eq,
      ?lookup_empty by done;
    try (split_and!; first [done | by eauto]).
Qed.

Lemma select_splits_ValueError (dataset : pyobj) (s s' : splits_value) :
  select_splits dataset s = Raise (ValueError_split_type s') ↔
  py_in "train" s = false ∧ py_in "test" s = false ∧ py_in "none" s = false
  ∧ s' = s.
Proof.
  unfold select_splits.
  destruct (py_in "train" s) eqn:Etrain, (py_in "test" s) eqn:Etest,
    (py_in "none" s) eqn:Enone;
    repeat
      match goal with
      | |- context [py_getitem dataset ?k] =>
          pose proof (py_getitem_not_ValueError dataset k s');
          destruct (py_getitem dataset k) eqn:?; simpl
      end;
    simpl; split; try done; try (by intros (? & ? & ? & ?));
    try (intros [= <-]; done); try (by intros (_ & _ & _ & ->));
    intros ?; congruence.
Qed.

(** The preprocessing phase, outcome by outcome. *)
Lemma apply_preprocessing_run (lib : Library) (tokenizer : Tokenizer)
    (data_args : DataArgs) (raw : gmap string pyobj) :
  apply_preprocessing lib tokenizer data_args raw =
  if template_requested data_args then
    match raw !! "train" with
    | None => ([], Raise (KeyError "train"))
    | Some train =>
        match py_map (preprocess lib tokenizer data_args) train with
        | Raise e => ([CallMap train], Raise e)
        | Ok train' =>
            if py_ne (splits data_args) "none" then
              match raw !! "test" with
              | None => ([CallMap train], Raise (KeyError "test"))
              | Some test =>
                  match py_map (preprocess lib tokenizer data_args) test with
                  | Raise e => ([CallMap train; CallMap test], Raise e)
                  | Ok test' =>
                      ([CallMap train; CallMap test],
                       Ok (<["test" := test']> (<["train" := train']> raw)))
                  end
              end
            else ([CallMap train], Ok (<["train" := train']> raw))
        end
    end
  else ([], Ok raw).
Proof.
  unfold apply_preprocessing, template_requested, dict_getitem.
  destruct (negb _); [|done].
  destruct (raw !! "train") as [train|]; [|done].
  rewrite bind_lift_Ok, call_map_run.
  destruct (py_map _ train) as [train'|e]; [|done].
  rewrite bind_Ok. destruct (py_ne _ _); [|done].
  rewrite lookup_insert_ne by done.
  destruct (raw !! "test") as [test|]; [|done].
  rewrite bind_lift_Ok, call_map_run.
  by destruct (py_map _ test) as [test'|e].
Qed.

(** The two size reports, outcome by outcome. *)
Lemma print_sizes_run (data_args : DataArgs) (raw : gmap string pyobj) :
  print_sizes data_args raw =
  match raw !! "train" with
  | None => ([], Raise (KeyError "train"))
  | Some train =>
      match py_len train with
      | Raise e => ([CallLen train], Raise e)
      | Ok n =>
          if py_ne (splits data_args) "none" then
            match raw !! "test" with
            | None =>
                ([CallLen train; CallPrint ("Dataset size: " +:+ pretty n)],
                 Raise (KeyError "test"))
            | Some test =>
                match py_len test with
                | Raise e =>
                    ([CallLen train; CallPrint ("Dataset size: " +:+ pretty n);
                      CallLen test], Raise e)
                | Ok m =>
                    ([CallLen train; CallPrint ("Dataset size: " +:+ pretty n);
                      CallLen test; CallPrint ("Dataset size: " +:+ pretty m)],
                     Ok ())
                end
            end
          else
            ([CallLen train; CallPrint ("Dataset size: " +:+ pretty n)], Ok ())
      end
  end.
Proof.
  unfold print_sizes, dict_getitem, print, emit.
  destruct (raw !! "train") as [train|]; [|done].
  rewrite bind_lift_Ok, call_len_run.
  destruct (py_len train) as [n|e]; [|done].
  rewrite !bind_Ok. cbn [trace outcome fst snd].
  destruct (py_ne _ _); [|done].
  destruct (raw !! "test") as [test|]; [|done].
  rewrite bind_lift_Ok, call_len_run.
  destruct (py_len test) as [m|e]; [|done].
  by rewrite bind_Ok.
Qed.

(** The whole run once the dataset is loaded and the splits are selected. *)
Lemma create_dpo_datasets_run (lib : Library) (tokenizer : Tokenizer)
    (data_args : DataArgs) :
  create_dpo_datasets lib tokenizer data_args =
  match load_result lib data_args with
  | Raise e => ([load_event data_args], Raise e)
  | Ok dataset =>
      match select_splits dataset (splits data_args) with
      | Raise e => ([load_event data_args], Raise e)
      | Ok raw =>
          let pre := apply_preprocessing lib tokenizer data_args raw in
          match outcome pre with
          | Raise e => (load_event data_args :: trace pre, Raise e)
          | Ok raw' =>
              let sizes := print_sizes data_args raw' in
              (load_event data_args :: trace pre ++ trace sizes,
               match outcome sizes with
               | Raise e => Raise e
               | Ok _ =>
                   match raw' !! "train", raw' !! "test" with
                   | Some train, Some test => Ok (train, test)
                   | None, _ => Raise (KeyError "train")
                   | Some _, None => Raise (KeyError "test")
                   end
               end)
          end
      end
  end.
Proof.
  unfold create_dpo_datasets. rewrite call_loader_run.
  destruct (load_result lib data_args) as [dataset|e]; [|done].
  rewrite bind_Ok.
  destruct (select_splits dataset (splits data_args)) as [raw|e]; [|done].
  rewrite bind_lift_Ok.
  destruct (apply_preprocessing lib tokenizer data_args raw) as [t1 [raw'|e]];
    [|done].
  rewrite bind_Ok. cbn [trace outcome fst snd].
  destruct (print_sizes data_args raw') as [t2 [[]|e]].
  - rewrite bind_Ok. cbn [trace outcome fst snd]. unfold dict_getitem.
    destruct (raw' !! "train") as [train|]; [|by rewrite app_nil_r].
    rewrite bind_lift_Ok.
    destruct (raw' !! "test") as [test|]; [|by rewrite app_nil_r].
    rewrite bind_lift_Ok. by rewrite app_nil_r.
  - done.
Qed.

Lemma py_ne_false (s : splits_value) (x : string) :
  py_ne s x = false ↔ s = SplitsStr x.
Proof.
  destruct s as [s|l]; simpl.
  - rewrite negb_false_iff, String.eqb_eq. split; congruence.
  - split; done.
Qed.

Lemma py_map_None (f : row → result row) (o : pyobj) : py_map f PNone ≠ Ok o.
Proof. done. Qed.

(** What a run that returns went through: the load and the selection
    succeeded, both keys were set, each returned split comes from the
    selected one, and the test split was measured unless [splits] is the
    string "none". *)
Lemma create_dpo_datasets_Ok (lib : Library) (tokenizer : Tokenizer)
    (data_args : DataArgs) (train test : pyobj) :
  outcome (create_dpo_datasets lib tokenizer data_args) = Ok (train, test) →
  ∃ dataset raw sel_train sel_test,
    load_result lib data_args = Ok dataset ∧
    select_splits dataset (splits data_args) = Ok raw ∧
    raw !! "train" = Some sel_train ∧
    raw !! "test" = Some sel_test ∧
    returned_from lib tokenizer data_args (template_requested data_args)
      sel_train train ∧
    returned_from lib tokenizer data_args
      (template_requested data_args && py_ne (splits data_args) "none")
      sel_test test ∧
    (py_ne (splits data_args) "none" = true → ∃ n, py_len test = Ok n).
Proof.
  rewrite create_dpo_datasets_run.
  destruct (load_result lib data_args) as [dataset|]; [|done].
  destruct (select_splits dataset (splits data_args)) as [raw|] eqn:Hsel; [|done].
  cbn zeta. rewrite apply_preprocessing_run.
  unfold returned_from.
  destruct (template_requested data_args).
  - destruct (raw !! "train") as [sel_train|] eqn:Htrain; [|done].
    destruct (py_map _ sel_train) as [train'|] eqn:Hmap1; [|done].
    destruct (py_ne (splits data_args) "none") eqn:Hne.
    + destruct (raw !! "test") as [sel_test|] eqn:Htest; [|done].
      destruct (py_map _ sel_test) as [test'|] eqn:Hmap2; [|done].
      cbn [outcome snd]. rewrite print_sizes_run, Hne.
      rewrite lookup_insert_ne, !lookup_insert_eq by done.
      destruct (py_len train'); [|done]. destruct (py_len test') eqn:Hlen; [|done].
      cbn [outcome snd]. intros [= <- <-].
      exists dataset, raw, sel_train, sel_test. split_and!; simpl; eauto.
    + cbn [outcome snd]. rewrite print_sizes_run, Hne.
      rewrite lookup_insert_eq, lookup_insert_ne by done.
      destruct (py_len train'); [|done]. cbn [outcome snd].
      destruct (raw !! "test") as [sel_test|] eqn:Htest; [|done].
      intros [= <- <-].
      exists dataset, raw, sel_train, sel_test. split_and!; simpl; eauto; done.
  - cbn [outcome snd]. rewrite print_sizes_run.
    destruct (raw !! "train") as [sel_train|] eqn:Htrain; [|done].
    destruct (py_len sel_train); [|done].
    destruct (py_ne (splits data_args) "none") eqn:Hne.
    + destruct (raw !! "test") as [sel_test|] eqn:Htest; [|done].
      destruct (py_len sel_test) eqn:Hlen; [|done].
      cbn [outcome snd]. intros [= <- <-].
      exists dataset, raw, sel_train, sel_test. split_and!; simpl; eauto.
    + cbn [outcome snd].
      destruct (raw !! "test") as [sel_test|] eqn:Htest; [|done].
      intros [= <- <-].
      exists dataset, raw, sel_train, sel_test. split_and!; simpl; eauto; done.
Qed.

(** A run returns with "none" in [splits] only when [splits] is the string
    "none" itself. *)
Lemma returns_with_none (lib : Library) (tokenizer : Tokenizer)
    (data_args : DataArgs) (train test : pyobj) :
  outcome (create_dpo_datasets lib tokenizer data_args) = Ok (train, test) →
  py_in "none" (splits data_args) = true →
  splits data_args = SplitsStr "none".
Proof.
  intros H Hnone.
  apply create_dpo_datasets_Ok in H
    as (dataset & raw & sel_train & sel_test & _ & Hsel & _ & Htest & _ & Hret & Hlen).
  apply select_splits_Ok in Hsel as (_ & Hn & _).
  destruct (Hn Hnone) as [_ Htest']. rewrite Htest' in Htest.
  injection Htest as <-.
  apply py_ne_false.
  destruct (py_ne (splits data_args) "none"); [|done].
  destruct (Hlen eq_refl) as [n Hn'].
  unfold returned_from in Hret.
  destruct (template_requested data_args); simpl in Hret.
  - done.
  - by subst test.
Qed.

Lemma template_requested_true (data_args : DataArgs) :
  template_requested data_args = true ↔ apply_chat_template data_args ≠ "none".
Proof.
  unfold template_requested. rewrite negb_true_iff.
  by destruct (String.eqb_spec (apply_chat_template data_args) "none").
Qed.

Lemma template_requested_false (data_args : DataArgs) :
  template_requested data_args = false ↔ apply_chat_template data_args = "none".
Proof.
  unfold template_requested. rewrite negb_false_iff. apply String.eqb_eq.
Qed.

Lemma rows_related_lengths (R : row → row → Prop) (o o' : pyobj) :
  rows_related R o o' →
  length <$> rows_of o = length <$> rows_of o'.
Proof.
  unfold rows_related. induction 1 as [|l l' ls ls' Hl _ IH]; [done|].
  simpl. f_equal; [|done]. by eapply Forall2_length.
Qed.

(** How a returned split relates to the selected one, for a relation on rows
    that [preprocess] establishes and, where no [map] runs, every row has
    with itself or the split has no rows. *)
Lemma returned_from_related (lib : Library) (tokenizer : Tokenizer)
    (data_args : DataArgs) (R : row → row → Prop) (mapped : bool)
    (selected returned : pyobj) :
  (∀ r r', updated_by (preprocess lib tokenizer data_args) r r' → R r r') →
  (mapped = false → (∀ r, R r r) ∨ selected = PNone) →
  returned_from lib tokenizer data_args mapped selected returned →
  rows_related R selected returned.
Proof.
  intros HR Hrefl. unfold returned_from. destruct mapped.
  - intros H. apply py_map_Ok in H as (H & _).
    by eapply rows_related_impl.
  - intros ->. destruct (Hrefl eq_refl) as [H | ->].
    + by apply rows_related_refl.
    + constructor.
Qed.

(** In a run that returns, a test split that is not mapped although a
    template is requested is [None]. *)
Lemma unmapped_test_is_None (dataset : pyobj) (data_args : DataArgs)
    (raw : gmap string pyobj) (sel_test : pyobj) :
  select_splits dataset (splits data_args) = Ok raw →
  raw !! "test" = Some sel_test →
  py_ne (splits data_args) "none" = false →
  sel_test = PNone.
Proof.
  intros Hsel Htest Hne. apply py_ne_false in Hne.
  apply select_splits_Ok in Hsel as (_ & Hnone & _).
  rewrite Hne in Hnone. destruct (Hnone eq_refl) as [_ H].
  congruence.
Qed.

(** C1: in every split a run returns, when [apply_chat_template] is not
    "none" each row's [chosen] and [rejected] are the renderings of the
    loaded row's conversations by [tokenizer.apply_chat_template(...,
    tokenize=False)], with the system message cut off when
    [remove_system_message] is set; when it is "none" the splits are returned
    as they were loaded. *)
Theorem C1_chosen_rejected_rewritten (lib : Library) (tokenizer : Tokenizer)
    (data_args : DataArgs) (train test : pyobj) :
  outcome (create_dpo_datasets lib tokenizer data_args) = Ok (train, test) →
  ∃ dataset raw sel_train sel_test,
    load_result lib data_args = Ok dataset ∧
    select_splits dataset (splits data_args) = Ok raw ∧
    raw !! "train" = Some sel_train ∧
    raw !! "test" = Some sel_test ∧
    (apply_chat_template data_args ≠ "none" →
     rows_related (row_rewritten lib tokenizer data_args) sel_train train ∧
     rows_related (row_rewritten lib tokenizer data_args) sel_test test) ∧
    (apply_chat_template data_args = "none" →
     train = sel_train ∧ test = sel_test).
Proof.
  intros H.
  apply create_dpo_datasets_Ok in H
    as (dataset & raw & sel_train & sel_test
        & Hload & Hsel & Htrain & Htest & Hret1 & Hret2 & _).
  exists dataset, raw, sel_train, sel_test. split_and!; try done.
  - intros Ht%template_requested_true. rewrite Ht in Hret1, Hret2. split.
    + apply (returned_from_related lib tokenizer data_args _ true sel_train);
        [|done|done].
      intros r r' Hu. by apply preprocess_update in Hu as [? _].
    + apply (returned_from_related lib tokenizer data_args _
               (true && py_ne (splits data_args) "none") sel_test);
        [| |done].
      * intros r r' Hu. by apply preprocess_update in Hu as [? _].
      * intros Hne. right. by eapply unmapped_test_is_None.
  - intros Ht%template_requested_false. rewrite Ht in Hret1, Hret2.
    by simpl in *.
Qed.

Lemma C1_chosen_rejected_rewritten_witness :
  match outcome (create_dpo_datasets sample_lib sample_tokenizer
                   (sample_data_args (SplitsStr "train,test") "chatml")) with
  | Ok (train, test) =>
      ∃ r',
        train = PDataset [r'] ∧
        r' !! "chosen" = Some (CStr "good") ∧
        r' !! "rejected" = Some (CStr "bad")
  | Raise _ => False
  end.
Proof.
  destruct (outcome _) as [[train test]|e] eqn:H;
    [|vm_compute in H; discriminate].
  destruct (C1_chosen_rejected_rewritten _ _ _ _ _ H)
    as (dataset & raw & sel_train & sel_test
        & Hload & Hsel & Htrain & Htest & Hrewritten & _).
  vm_compute in Hload. injection Hload as <-.
  vm_compute in Hsel. injection Hsel as <-.
  vm_compute in Htrain. injection Htrain as <-.
  destruct Hrewritten as [Hrel _]; [done|].
  assert (∃ r', train = PDataset [r']) as [r' ->].
  { vm_compute in H. injection H as <- _. eauto. }
  exists r'. split; [done|].
  unfold rows_related in Hrel. simpl in Hrel.
  apply Forall2_cons_1 in Hrel as [Hrows _].
  apply Forall2_cons_1 in Hrows as [Hrow _].
  destruct Hrow as (c & rj & tc & tr & Hc & Hr & Htc & Htr & Hc' & Hr').
  vm_compute in Hc, Hr. injection Hc as <-. injection Hr as <-.
  vm_compute in Htc, Htr. injection Htc as <-. injection Htr as <-.
  split; [rewrite Hc' | rewrite Hr']; reflexivity.
Defined.

(** C6: the preprocessing touches only [chosen] and [rejected].  Every row
    of a returned split agrees with the row at the same place of the loaded
    split on all other fields, and each split keeps its number of rows. *)
Theorem C6_other_fields_unchanged (lib : Library) (tokenizer : Tokenizer)
    (data_args : DataArgs) (train test : pyobj) :
  outcome (create_dpo_datasets lib tokenizer data_args) = Ok (train, test) →
  ∃ dataset raw sel_train sel_test,
    load_result lib data_args = Ok dataset ∧
    select_splits dataset (splits data_args) = Ok raw ∧
    raw !! "train" = Some sel_train ∧
    raw !! "test" = Some sel_test ∧
    rows_related same_other_fields sel_train train ∧
    rows_related same_other_fields sel_test test ∧
    length <$> rows_of train = length <$> rows_of sel_train ∧
    length <$> rows_of test = length <$> rows_of sel_test.
Proof.
  intros H.
  apply create_dpo_datasets_Ok in H
    as (dataset & raw & sel_train & sel_test
        & Hload & Hsel & Htrain & Htest & Hret1 & Hret2 & _).
  assert (rows_related same_other_fields sel_train train) as H1.
  { eapply returned_from_related; [| |exact Hret1].
    - intros r r' Hu. by apply preprocess_update in Hu as [_ ?].
    - intros _. left. by intros r k. }
  assert (rows_related same_other_fields sel_test test) as H2.
  { eapply returned_from_related; [| |exact Hret2].
    - intros r r' Hu. by apply preprocess_update in Hu as [_ ?].
    - intros _. left. by intros r k. }
  exists dataset, raw, sel_train, sel_test. split_and!; try done.
  - symmetry. by eapply rows_related_lengths.
  - symmetry. by eapply rows_related_lengths.
Qed.

Lemma C6_other_fields_unchanged_witness :
  match outcome (create_dpo_datasets sample_lib sample_tokenizer
                   (sample_data_args (SplitsStr "train,test") "chatml")) with
  | Ok (train, test) =>
      ∃ r', train = PDataset [r'] ∧ r' !! "id" = Some (CInt 7)
  | Raise _ => False
  end.
Proof.
  destruct (outcome _) as [[train test]|e] eqn:H;
    [|vm_compute in H; discriminate].
  destruct (C6_other_fields_unchanged _ _ _ _ _ H)
    as (dataset & raw & sel_train & sel_test
        & Hload & Hsel & Htrain & Htest & Hrel & _).
  vm_compute in Hload. injection Hload as <-.
  vm_compute in Hsel. injection Hsel as <-.
  vm_compute in Htrain. injection Htrain as <-.
  assert (∃ r', train = PDataset [r']) as [r' ->].
  { vm_compute in H. injection H as <- _. eauto. }
  exists r'. split; [done|].
  unfold rows_related in Hrel. simpl in Hrel.
  apply Forall2_cons_1 in Hrel as [Hrows _].
  apply Forall2_cons_1 in Hrows as [Hrow _].
  by rewrite (Hrow "id").
Defined.

(** ** Traces of create_dpo_datasets *)

Lemma apply_preprocessing_trace (lib : Library) (tokenizer : Tokenizer)
    (data_args : DataArgs) (raw : gmap string pyobj) :
  Forall (λ e, is_load e = false)
    (trace (apply_preprocessing lib tokenizer data_args raw)).
Proof.
  rewrite apply_preprocessing_run.
  repeat case_match; cbn [trace fst]; repeat constructor.
Qed.

Lemma print_sizes_trace (data_args : DataArgs) (raw : gmap string pyobj) :
  Forall (λ e, is_load e = false ∧ is_map e = false)
    (trace (print_sizes data_args raw)).
Proof.
  rewrite print_sizes_run.
  repeat case_match; cbn [trace fst]; repeat constructor.
Qed.

Lemma load_result_unfold (lib : Library) (data_args : DataArgs) :
  load_result lib data_args =
  obj_of_loaded <$>
    external_call
      (if is_local_data data_args
       then load_from_disk lib (dataset_name data_args)
       else load_dataset lib (dataset_name data_args)).
Proof. unfold load_result. by destruct (is_local_data data_args). Qed.

(** Every event of a run after the first is a [map], a [len] or a [print]. *)
Lemma create_dpo_datasets_trace (lib : Library) (tokenizer : Tokenizer)
    (data_args : DataArgs) :
  ∃ rest,
    trace (create_dpo_datasets lib tokenizer data_args)
      = load_event data_args :: rest ∧
    Forall (λ e, is_load e = false) rest ∧
    (∀ e, load_result lib data_args = Raise e → rest = []).
Proof.
  rewrite create_dpo_datasets_run.
  destruct (load_result lib data_args) as [dataset|e];
    [|by exists []].
  destruct (select_splits dataset (splits data_args)) as [raw|e];
    [|by exists []].
  cbn zeta.
  pose proof (apply_preprocessing_trace lib tokenizer data_args raw) as Hpre.
  destruct (apply_preprocessing lib tokenizer data_args raw) as [t1 [raw'|e]];
    cbn [outcome trace fst snd] in *; [|by exists t1].
  pose proof (print_sizes_trace data_args raw') as Hsizes.
  eexists. split; [reflexivity|]. split; [|done].
  apply Forall_app. split; [done|].
  eapply Forall_impl; [exact Hsizes|]. by intros ? [? _].
Qed.

(** C5: a run calls exactly one loader, first of all: [load_from_disk] on
    [dataset_name] when [is_local_data] is set and [load_dataset] on the same
    name when it is not.  A failure of that call is the failure of the run.
    What the call returns is what the run works on: the selection is made
    from it, a failure of that selection is the failure of the run, the
    events that follow the load are those of the preprocessing and of the
    size reports on the splits selected from it, and the splits a run
    returns come from the splits selected from it. *)
Theorem C5_loading_path (lib : Library) (tokenizer : Tokenizer)
    (data_args : DataArgs) :
  ∃ rest,
    trace (create_dpo_datasets lib tokenizer data_args) =
      (if is_local_data data_args
       then CallLoadFromDisk (dataset_name data_args)
       else CallLoadDataset (dataset_name data_args)) :: rest ∧
    Forall (λ e, is_load e = false) rest ∧
    match (if is_local_data data_args
           then load_from_disk lib (dataset_name data_args)
           else load_dataset lib (dataset_name data_args)) with
    | Fails what =>
        rest = [] ∧
        outcome (create_dpo_datasets lib tokenizer data_args)
          = Raise (ExternalError what)
    | Returns l =>
        match select_splits (obj_of_loaded l) (splits data_args) with
        | Raise e =>
            rest = [] ∧
            outcome (create_dpo_datasets lib tokenizer data_args) = Raise e
        | Ok raw =>
            rest =
              trace (apply_preprocessing lib tokenizer data_args raw) ++
              match outcome (apply_preprocessing lib tokenizer data_args raw) with
              | Ok raw' => trace (print_sizes data_args raw')
              | Raise _ => []
              end ∧
            ∀ train test,
              outcome (create_dpo_datasets lib tokenizer data_args)
                = Ok (train, test) →
              ∃ sel_train sel_test,
                raw !! "train" = Some sel_train ∧
                raw !! "test" = Some sel_test ∧
                returned_from lib tokenizer data_args
                  (template_requested data_args) sel_train train ∧
                returned_from lib tokenizer data_args
                  (template_requested data_args
                   && py_ne (splits data_args) "none")
                  sel_test test
        end
    end.
Proof.
  pose proof (create_dpo_datasets_run lib tokenizer data_args) as Hrun.
  pose proof (create_dpo_datasets_Ok lib tokenizer data_args) as Hok.
  rewrite load_result_unfold in Hrun, Hok. unfold load_event in Hrun.
  destruct (if is_local_data data_args
            then load_from_disk lib (dataset_name data_args)
            else load_dataset lib (dataset_name data_args)) as [l|what];
    cbn [external_call fmap result_fmap] in Hrun, Hok.
  - destruct (select_splits (obj_of_loaded l) (splits data_args))
      as [raw|e] eqn:Hsel.
    + cbn zeta in Hrun.
      pose proof (apply_preprocessing_trace lib tokenizer data_args raw) as Hpre.
      eexists. split; [|split; [|split; [reflexivity|]]].
      * rewrite Hrun.
        destruct (outcome (apply_preprocessing lib tokenizer data_args raw));
          cbn [trace fst]; [done|]. by rewrite app_nil_r.
      * apply Forall_app. split; [done|].
        destruct (outcome (apply_preprocessing lib tokenizer data_args raw))
          as [raw'|]; [|done].
        eapply Forall_impl; [apply print_sizes_trace|]. by intros ? [? _].
      * intros train test H.
        destruct (Hok train test H)
          as (dataset & raw0 & sel_train & sel_test
              & [= <-] & Hsel0 & Htrain & Htest & Hret1 & Hret2 & _).
        rewrite Hsel in Hsel0. injection Hsel0 as <-.
        by exists sel_train, sel_test.
    + exists []. by rewrite Hrun.
  - exists []. by rewrite Hrun.
Qed.

Lemma C5_loading_path_witness :
  (∃ rest,
     trace (create_dpo_datasets sample_lib sample_tokenizer
              (sample_data_args (SplitsStr "train,test") "none"))
       = CallLoadDataset "trl-lib/ultrafeedback_binarized" :: rest ∧
     Forall (λ e, is_load e = false) rest) ∧
  match outcome (create_dpo_datasets sample_lib sample_tokenizer
                   (sample_data_args (SplitsStr "train,test") "none")) with
  | Ok (train, test) => train = PDataset [sample_row] ∧ test = PDataset []
  | Raise _ => False
  end.
Proof.
  destruct (C5_loading_path sample_lib sample_tokenizer
              (sample_data_args (SplitsStr "train,test") "none"))
    as (rest & Htrace & Hrest & Hdata).
  split; [by exists rest|].
  destruct (outcome _) as [[train test]|e] eqn:H;
    [|vm_compute in H; discriminate].
  cbn [is_local_data sample_data_args load_dataset sample_lib] in Hdata.
  destruct (select_splits (obj_of_loaded sample_loaded) _) as [raw|e] eqn:Hsel;
    [|vm_compute in Hsel; discriminate].
  destruct Hdata as [_ Hdata].
  destruct (Hdata train test eq_refl)
    as (sel_train & sel_test & Htrain & Htest & Hret1 & Hret2).
  vm_compute in Hsel. injection Hsel as <-.
  vm_compute in Htrain, Htest. injection Htrain as <-. injection Htest as <-.
  split; [exact Hret1 | exact Hret2].
Defined.

(** ** Where a ValueError can come from *)

Lemma to_apply_chat_template_Raise (lib : Library) (tokenizer : Tokenizer)
    (messages : cell) (remove : bool) (e : exn) :
  to_apply_chat_template lib messages tokenizer remove = Raise e →
  is_ValueError e = false.
Proof.
  unfold to_apply_chat_template.
  destruct (tokenizer_apply_chat_template lib tokenizer messages); simpl; [done|].
  by intros [= <-].
Qed.

Lemma preprocess_Raise (lib : Library) (tokenizer : Tokenizer)
    (data_args : DataArgs) (r : row) (e : exn) :
  preprocess lib tokenizer data_args r = Raise e → is_ValueError e = false.
Proof.
  unfold preprocess, row_getitem.
  destruct (r !! "chosen") as [c|]; simpl; [|by intros [= <-]].
  destruct (to_apply_chat_template lib c tokenizer _) eqn:H1; simpl;
    [|intros [= <-]; by eapply to_apply_chat_template_Raise].
  destruct (r !! "rejected") as [rj|]; simpl; [|by intros [= <-]].
  destruct (to_apply_chat_template lib rj tokenizer _) eqn:H2; simpl;
    [done|intros [= <-]; by eapply to_apply_chat_template_Raise].
Qed.

Lemma dataset_map_Raise (f : row → result row) (rows : list row) (e : exn) :
  dataset_map f rows = Raise e → ∃ r, r ∈ rows ∧ f r = Raise e.
Proof.
  induction rows as [|r rows IH]; simpl; [done|].
  destruct (f r) as [out|e'] eqn:Hf; simpl.
  - destruct (dataset_map f rows) as [rest|e'] eqn:Hm; simpl; [done|].
    intros [= <-]. destruct (IH eq_refl) as (r0 & Hin & Hr0).
    exists r0. split; [by apply list_elem_of_further | done].
  - intros [= <-]. exists r. split; [apply list_elem_of_here | done].
Qed.

Lemma datasetdict_map_Raise (f : row → result row)
    (d : list (string * list row)) (e : exn) :
  datasetdict_map f d = Raise e → ∃ r, f r = Raise e.
Proof.
  induction d as [|[k rows] d IH]; simpl; [done|].
  destruct (dataset_map f rows) as [rows'|e'] eqn:Hm; simpl.
  - destruct (datasetdict_map f d) as [rest|e'']; simpl; [done|].
    intros [= <-]. by apply IH.
  - intros [= <-]. apply dataset_map_Raise in Hm as (r & _ & Hr). eauto.
Qed.

Lemma py_map_Raise (lib : Library) (tokenizer : Tokenizer)
    (data_args : DataArgs) (o : pyobj) (e : exn) :
  py_map (preprocess lib tokenizer data_args) o = Raise e →
  is_ValueError e = false.
Proof.
  destruct o as [|xs|rows|d]; simpl; try (by intros [= <-]).
  - destruct (dataset_map _ rows) as [rows'|e'] eqn:Hm; simpl; [done|].
    intros [= <-]. apply dataset_map_Raise in Hm as (r & _ & Hr).
    by eapply preprocess_Raise.
  - destruct (datasetdict_map _ d) as [d'|e'] eqn:Hm; simpl; [done|].
    intros [= <-]. apply datasetdict_map_Raise in Hm as (r & Hr).
    by eapply preprocess_Raise.
Qed.

Lemma py_len_Raise (o : pyobj) (e : exn) :
  py_len o = Raise e → is_ValueError e = false.
Proof. destruct o; simpl; try done. by intros [= <-]. Qed.

Lemma apply_preprocessing_Raise (lib : Library) (tokenizer : Tokenizer)
    (data_args : DataArgs) (raw : gmap string pyobj) (e : exn) :
  outcome (apply_preprocessing lib tokenizer data_args raw) = Raise e →
  is_ValueError e = false.
Proof.
  rewrite apply_preprocessing_run.
  repeat case_match; cbn [outcome snd]; try done; intros [= <-]; try done;
    by eapply py_map_Raise.
Qed.

Lemma print_sizes_Raise (data_args : DataArgs) (raw : gmap string pyobj)
    (e : exn) :
  outcome (print_sizes data_args raw) = Raise e → is_ValueError e = false.
Proof.
  rewrite print_sizes_run.
  repeat case_match; cbn [outcome snd]; try done; intros [= <-]; try done;
    by eapply py_len_Raise.
Qed.

(** A run ends in the [ValueError] of line 91 only out of the selection, and
    then nothing but the load has happened. *)
Lemma create_dpo_datasets_ValueError (lib : Library) (tokenizer : Tokenizer)
    (data_args : DataArgs) (e : exn) :
  outcome (create_dpo_datasets lib tokenizer data_args) = Raise e →
  is_ValueError e = true →
  ∃ dataset,
    load_result lib data_args = Ok dataset ∧
    select_splits dataset (splits data_args) = Raise e ∧
    trace (create_dpo_datasets lib tokenizer data_args) = [load_event data_args].
Proof.
  rewrite create_dpo_datasets_run, load_result_unfold.
  destruct (external_call _) as [l|e0] eqn:Hl; simpl.
  - destruct (select_splits _ _) as [raw|e1] eqn:Hsel.
    + cbn zeta.
      destruct (outcome (apply_preprocessing lib tokenizer data_args raw))
        as [raw'|e2] eqn:Hpre; cbn [outcome snd].
      * destruct (outcome (print_sizes data_args raw')) as [[]|e3] eqn:Hsizes.
        -- repeat case_match; try done; intros [= <-]; done.
        -- intros [= <-] He. apply print_sizes_Raise in Hsizes. congruence.
      * intros [= <-] He. apply apply_preprocessing_Raise in Hpre. congruence.
    + cbn [outcome snd]. intros [= <-] _. eauto.
  - destruct (if is_local_data data_args then _ else _); simpl in Hl; [done|].
    injection Hl as <-. by intros [= <-].
Qed.

Lemma py_ne_true_of_not_none (s : splits_value) :
  py_in "none" s = false → py_ne s "none" = true.
Proof.
  intros H. destruct (py_ne s "none") eqn:E; [done|].
  apply py_ne_false in E. by subst s.
Qed.

(** C2: once the dataset is loaded, the run raises the [ValueError] of line
    91 exactly when none of "train", "test", "none" is in [splits]; it does so
    right after the load, before any [map].  Whenever the run returns, its
    splits were picked by membership: with "train" in [splits] the train
    split comes from [dataset["train"]], with "test" in [splits] the test
    split comes from [dataset["test"]], and with "none" in [splits] the
    train split comes from the whole dataset and the test split is [None]. *)
Theorem C2_split_selection (lib : Library) (tokenizer : Tokenizer)
    (data_args : DataArgs) (dataset : pyobj) :
  load_result lib data_args = Ok dataset →
  ((py_in "train" (splits data_args) = false ∧
    py_in "test" (splits data_args) = false ∧
    py_in "none" (splits data_args) = false) ↔
   ∃ e, outcome (create_dpo_datasets lib tokenizer data_args) = Raise e ∧
        is_ValueError e = true) ∧
  (∀ e, outcome (create_dpo_datasets lib tokenizer data_args) = Raise e →
        is_ValueError e = true →
        e = ValueError_split_type (splits data_args) ∧
        trace (create_dpo_datasets lib tokenizer data_args)
          = [load_event data_args]) ∧
  (∀ train test,
     outcome (create_dpo_datasets lib tokenizer data_args) = Ok (train, test) →
     (py_in "train" (splits data_args) = true →
      ∃ selected,
        py_getitem dataset "train" = Ok selected ∧
        returned_from lib tokenizer data_args (template_requested data_args)
          selected train) ∧
     (py_in "test" (splits data_args) = true →
      ∃ selected,
        py_getitem dataset "test" = Ok selected ∧
        returned_from lib tokenizer data_args (template_requested data_args)
          selected test) ∧
     (py_in "none" (splits data_args) = true →
      returned_from lib tokenizer data_args (template_requested data_args)
        dataset train ∧
      test = PNone)).
Proof.
  intros Hload. refine (conj (conj _ _) (conj _ _)).
  - intros (H1 & H2 & H3).
    assert (select_splits dataset (splits data_args)
            = Raise (ValueError_split_type (splits data_args))) as Hsel
      by by apply select_splits_ValueError.
    exists (ValueError_split_type (splits data_args)).
    rewrite create_dpo_datasets_run, Hload, Hsel. done.
  - intros (e & He & Hv).
    apply create_dpo_datasets_ValueError in He as (d & Hd & Hsel & _); [|done].
    rewrite Hload in Hd. injection Hd as <-.
    destruct e; try done.
    apply select_splits_ValueError in Hsel. tauto.
  - intros e He Hv.
    apply create_dpo_datasets_ValueError in He as (d & Hd & Hsel & Htrace); [|done].
    rewrite Hload in Hd. injection Hd as <-.
    split; [|done]. destruct e; try done.
    apply select_splits_ValueError in Hsel as (_ & _ & _ & ->). done.
  - intros train test H.
    pose proof (returns_with_none _ _ _ _ _ H) as Hnone.
    apply create_dpo_datasets_Ok in H
      as (d & raw & sel_train & sel_test
          & Hd & Hsel & Htrain & Htest & Hret1 & Hret2 & _).
    rewrite Hload in Hd. injection Hd as <-.
    apply select_splits_Ok in Hsel as (_ & Hyes & Hno).
    destruct (py_in "none" (splits data_args)) eqn:En.
    + rewrite (Hnone eq_refl) in *.
      destruct (Hyes eq_refl) as [Ht1 Ht2].
      rewrite Ht1 in Htrain. rewrite Ht2 in Htest.
      injection Htrain as <-. injection Htest as <-.
      split_and!; try done.
      intros _. split; [done|].
      rewrite andb_false_r in Hret2. exact Hret2.
    + destruct (Hno eq_refl) as (Ht1 & Ht2 & _).
      rewrite (py_ne_true_of_not_none _ En), andb_true_r in Hret2.
      split_and!; [| |done].
      * intros Et. rewrite Et, Htrain in Ht1.
        destruct (py_getitem dataset "train") as [v|]; [|done].
        injection Ht1 as ->. eauto.
      * intros Et. rewrite Et, Htest in Ht2.
        destruct (py_getitem dataset "test") as [v|]; [|done].
        injection Ht2 as ->. eauto.
Qed.

Lemma C2_split_selection_witness :
  outcome (create_dpo_datasets sample_lib sample_tokenizer
             (sample_data_args (SplitsStr "validation") "chatml"))
    = Raise (ValueError_split_type (SplitsStr "validation")) ∧
  trace (create_dpo_datasets sample_lib sample_tokenizer
           (sample_data_args (SplitsStr "validation") "chatml"))
    = [CallLoadDataset "trl-lib/ultrafeedback_binarized"] ∧
  match outcome (create_dpo_datasets sample_lib sample_tokenizer
                   (sample_data_args (SplitsStr "train,test") "none")) with
  | Ok (train, test) => train = PDataset [sample_row] ∧ test = PDataset []
  | Raise _ => False
  end.
Proof.
  destruct (C2_split_selection sample_lib sample_tokenizer
              (sample_data_args (SplitsStr "validation") "chatml")
              sample_dataset eq_refl) as ((Hto & _) & Hval & _).
  destruct (Hto (conj eq_refl (conj eq_refl eq_refl))) as (e & He & Hv).
  destruct (Hval e He Hv) as [-> Htrace].
  split; [exact He|]. split; [exact Htrace|].
  destruct (outcome (create_dpo_datasets _ _ (sample_data_args (SplitsStr "train,test") _)))
    as [[train test]|e] eqn:H; [|vm_compute in H; discriminate].
  destruct (C2_split_selection sample_lib sample_tokenizer
              (sample_data_args (SplitsStr "train,test") "none")
              sample_dataset eq_refl) as (_ & _ & Hsel).
  destruct (Hsel train test H) as (Htrain & Htest & _).
  destruct (Htrain eq_refl) as (s1 & Hs1 & ->).
  destruct (Htest eq_refl) as (s2 & Hs2 & ->).
  vm_compute in Hs1, Hs2. injection Hs1 as <-. injection Hs2 as <-.
  split; reflexivity.
Defined.

(** ** The guards on the test split *)

Lemma select_splits_none_in (dataset : pyobj) (s : splits_value)
    (raw : gmap string pyobj) :
  select_splits dataset s = Ok raw →
  py_in "none" s = true →
  raw !! "train" = Some dataset ∧ raw !! "test" = Some PNone.
Proof. intros H Hn. apply select_splits_Ok in H as (_ & H & _). auto. Qed.

Lemma select_splits_none_string (dataset : pyobj) :
  select_splits dataset (SplitsStr "none")
  = Ok (<["test" := PNone]> (<["train" := dataset]> ∅)).
Proof. reflexivity. Qed.

Lemma returned_from_len (lib : Library) (tokenizer : Tokenizer)
    (data_args : DataArgs) (mapped : bool) (l : loaded) (returned : pyobj) :
  returned_from lib tokenizer data_args mapped (obj_of_loaded l) returned →
  returned ≠ PNone ∧ ∃ n, py_len returned = Ok n.
Proof.
  unfold returned_from. destruct mapped.
  - intros H. apply py_map_Ok in H as (_ & ? & ?). done.
  - intros ->. split; [by destruct l | apply py_len_loaded].
Qed.

(** C9: the selection tests ["none" in splits], the preprocessing and the
    second size report test [splits != "none"].  So when [splits] is the
    string "none" the run returns the whole dataset (mapped when a template
    is requested) with [None], and no [map] or [len] ever gets [None]; a run
    that returns [None] as its test split has [splits] equal to that string;
    and for any other [splits] with "none" in it and a template requested,
    the [map] of the train split is followed by a [map] on [None], which
    raises. *)
Theorem C9_test_split_guards (lib : Library) (tokenizer : Tokenizer)
    (data_args : DataArgs) (dataset : pyobj) :
  load_result lib data_args = Ok dataset →
  (splits data_args = SplitsStr "none" →
   ∀ train,
     returned_from lib tokenizer data_args (template_requested data_args)
       dataset train →
     outcome (create_dpo_datasets lib tokenizer data_args) = Ok (train, PNone) ∧
     Forall (λ e, ¬ touches PNone e)
       (trace (create_dpo_datasets lib tokenizer data_args))) ∧
  (∀ train,
     outcome (create_dpo_datasets lib tokenizer data_args) = Ok (train, PNone) →
     splits data_args = SplitsStr "none") ∧
  (py_in "none" (splits data_args) = true →
   splits data_args ≠ SplitsStr "none" →
   apply_chat_template data_args ≠ "none" →
   ∀ raw train,
     select_splits dataset (splits data_args) = Ok raw →
     py_map (preprocess lib tokenizer data_args) dataset = Ok train →
     trace (create_dpo_datasets lib tokenizer data_args)
       = [load_event data_args; CallMap dataset; CallMap PNone] ∧
     outcome (create_dpo_datasets lib tokenizer data_args)
       = Raise (AttributeError "NoneType" "map")).
Proof.
  intros Hload. split_and!.
  - intros Hs train Hret.
    destruct (load_result_Ok _ _ _ Hload) as [l ->].
    destruct (returned_from_len _ _ _ _ _ _ Hret) as (Hne & n & Hn).
    assert (obj_of_loaded l ≠ PNone) as Hl by by destruct l.
    rewrite create_dpo_datasets_run, Hload, Hs, select_splits_none_string.
    cbn zeta. rewrite apply_preprocessing_run. unfold returned_from in Hret.
    unfold load_event.
    destruct (template_requested data_args).
    + rewrite lookup_insert_ne, lookup_insert_eq, Hret, Hs by done.
      change (py_ne (SplitsStr "none") "none") with false.
      cbn [outcome trace fst snd].
      rewrite print_sizes_run, Hs.
      rewrite lookup_insert_eq, Hn.
      change (py_ne (SplitsStr "none") "none") with false.
      cbn [outcome trace fst snd].
      rewrite lookup_insert_ne, lookup_insert_eq by done.
      split; [done|].
      destruct (is_local_data data_args);
        repeat constructor; unfold touches; intros [?|?]; congruence.
    + subst train. cbn [outcome trace fst snd].
      rewrite print_sizes_run, Hs.
      rewrite lookup_insert_ne, lookup_insert_eq, Hn by done.
      change (py_ne (SplitsStr "none") "none") with false.
      cbn [outcome trace fst snd].
      rewrite lookup_insert_eq.
      split; [done|].
      destruct (is_local_data data_args);
        repeat constructor; unfold touches; intros [?|?]; congruence.
  - intros train H.
    apply create_dpo_datasets_Ok in H as (_ & _ & _ & _ & _ & _ & _ & _ & _ & _ & Hlen).
    apply py_ne_false.
    destruct (py_ne (splits data_args) "none"); [|done].
    by destruct (Hlen eq_refl).
  - intros Hnone Hs Ht raw train Hsel Hmap.
    destruct (select_splits_none_in _ _ _ Hsel Hnone) as [Htrain Htest].
    assert (py_ne (splits data_args) "none" = true) as Hne.
    { destruct (py_ne (splits data_args) "none") eqn:E; [done|].
      by apply py_ne_false in E. }
    apply template_requested_true in Ht.
    rewrite create_dpo_datasets_run, Hload, Hsel.
    cbn zeta. rewrite apply_preprocessing_run, Ht, Htrain, Hmap, Hne, Htest.
    done.
Qed.

Lemma C9_test_split_guards_witness :
  match py_map (preprocess sample_lib sample_tokenizer
                  (sample_data_args (SplitsStr "none") "chatml"))
          sample_dataset with
  | Ok train =>
      outcome (create_dpo_datasets sample_lib sample_tokenizer
                 (sample_data_args (SplitsStr "none") "chatml"))
        = Ok (train, PNone) ∧
      Forall (λ e, ¬ touches PNone e)
        (trace (create_dpo_datasets sample_lib sample_tokenizer
                  (sample_data_args (SplitsStr "none") "chatml")))
  | Raise _ => False
  end ∧
  trace (create_dpo_datasets sample_lib sample_tokenizer
           (sample_data_args (SplitsList ["none"]) "chatml"))
    = [CallLoadDataset "trl-lib/ultrafeedback_binarized";
       CallMap sample_dataset; CallMap PNone] ∧
  outcome (create_dpo_datasets sample_lib sample_tokenizer
             (sample_data_args (SplitsList ["none"]) "chatml"))
    = Raise (AttributeError "NoneType" "map").
Proof.
  split.
  - destruct (py_map _ sample_dataset) as [train|e] eqn:Hm;
      [|vm_compute in Hm; discriminate].
    destruct (C9_test_split_guards sample_lib sample_tokenizer
                (sample_data_args (SplitsStr "none") "chatml")
                sample_dataset eq_refl) as (Hstring & _ & _).
    exact (Hstring eq_refl train Hm).
  - destruct (C9_test_split_guards sample_lib sample_tokenizer
                (sample_data_args (SplitsList ["none"]) "chatml")
                sample_dataset eq_refl) as (_ & _ & Hlist).
    destruct (select_splits sample_dataset (SplitsList ["none"]))
      as [raw|e] eqn:Hsel; [|vm_compute in Hsel; discriminate].
    destruct (py_map (preprocess sample_lib sample_tokenizer
                        (sample_data_args (SplitsList ["none"]) "chatml"))
                sample_dataset) as [train|e] eqn:Hm;
      [|vm_compute in Hm; discriminate].
    apply (Hlist eq_refl) with (raw := raw) (train := train); done.
Defined.

(** ** Runs on the sample inputs *)

(** With only "train" in [splits] nothing is stored under "test", and the
    second size report raises [KeyError]. *)
Example create_dpo_datasets_train_only :
  create_dpo_datasets sample_lib sample_tokenizer
    (sample_data_args (SplitsStr "train") "none")
  = ([CallLoadDataset "trl-lib/ultrafeedback_binarized";
      CallLen (PDataset [sample_row]); CallPrint "Dataset size: 1"],
     Raise (KeyError "test")).
Proof. vm_compute. reflexivity. Qed.

(** With "train" and "none" both in [splits] the selection keeps the whole
    dataset as the train split, and the run ends in the [len] of [None]. *)
Example select_splits_train_and_none :
  select_splits sample_dataset (SplitsList ["train"; "none"])
  = Ok (<["test" := PNone]> (<["train" := sample_dataset]> ∅)).
Proof. vm_compute. reflexivity. Qed.

Example create_dpo_datasets_train_and_none :
  outcome (create_dpo_datasets sample_lib sample_tokenizer
             (sample_data_args (SplitsList ["train"; "none"]) "none"))
  = Raise (TypeError "object of type 'NoneType' has no len()").
Proof. vm_compute. reflexivity. Qed.

(** Membership in a string is a substring test. *)
Example py_in_substring : py_in "none" (SplitsStr "nonexistent") = true.
Proof. reflexivity. Qed.

Example split_sample :
  split "," "q_proj,,v_proj," = ["q_proj"; EmptyString; "v_proj"; EmptyString].
Proof. reflexivity. Qed.

Example version_dev_before_final :
  version_ge_release {| release := [4; 46; 0]%nat; is_prerelease := true |}
    [4; 46; 0]%nat = false ∧
  version_ge_release {| release := [4; 46]%nat; is_prerelease := false |}
    [4; 46; 0]%nat = true ∧
  version_ge_release {| release := [4; 100]%nat; is_prerelease := true |}
    [4; 46; 0]%nat = true.
Proof. repeat split. Qed.

Example special_token_values_distinct :
  NoDup ChatmlSpecialTokens.list ∧ NoDup ZephyrSpecialTokens.list.
Proof.
  split; apply (bool_decide_unpack (NoDup _)); vm_compute; exact I.
Qed.

(** * Further properties of create_dpo_datasets *)

(** X1: a run returns only for two kinds of [splits]: the string "none"
    (and then the test split is [None]), or a value that has both "train" and
    "test" in it and not "none". *)
Theorem create_dpo_datasets_returns_only_for (lib : Library)
    (tokenizer : Tokenizer) (data_args : DataArgs) (train test : pyobj) :
  outcome (create_dpo_datasets lib tokenizer data_args) = Ok (train, test) →
  (splits data_args = SplitsStr "none" ∧ test = PNone) ∨
  (py_in "train" (splits data_args) = true ∧
   py_in "test" (splits data_args) = true ∧
   py_in "none" (splits data_args) = false ∧
   test ≠ PNone).
Proof.
  intros H.
  pose proof (returns_with_none _ _ _ _ _ H) as Hnone.
  apply create_dpo_datasets_Ok in H
    as (dataset & raw & sel_train & sel_test
        & _ & Hsel & Htrain & Htest & _ & Hret2 & Hlen).
  apply select_splits_Ok in Hsel as (_ & Hyes & Hno).
  destruct (py_in "none" (splits data_args)) eqn:En.
  - left. split; [by apply Hnone|].
    rewrite (Hnone eq_refl) in Hret2.
    destruct (Hyes eq_refl) as [_ Ht2]. rewrite Ht2 in Htest.
    injection Htest as <-.
    change (py_ne (SplitsStr "none") "none") with false in Hret2.
    by rewrite andb_false_r in Hret2.
  - right. destruct (Hno eq_refl) as (Ht1 & Ht2 & _).
    rewrite Htrain in Ht1. rewrite Htest in Ht2.
    destruct (py_in "train" (splits data_args)); [|done].
    destruct (py_in "test" (splits data_args)); [|done].
    split_and!; try done.
    destruct (Hlen (py_ne_true_of_not_none _ En)) as [n Hn].
    by intros ->.
Qed.

Lemma create_dpo_datasets_returns_only_for_witness :
  match outcome (create_dpo_datasets sample_lib sample_tokenizer
                   (sample_data_args (SplitsStr "test,train") "chatml")) with
  | Ok (_, test) => test ≠ PNone
  | Raise _ => False
  end.
Proof.
  destruct (outcome _) as [[train test]|e] eqn:H;
    [|vm_compute in H; discriminate].
  destruct (create_dpo_datasets_returns_only_for _ _ _ _ _ H)
    as [[Hs _] | (_ & _ & _ & Hne)]; [discriminate Hs | exact Hne].
Defined.

(** X2: with exactly one of "train" and "test" in [splits] (and no "none")
    the run cannot return, because the other key is never stored.  With
    "train" alone it gets as far as the train split allows and then raises
    [KeyError] for "test"; with "test" alone it raises [KeyError] for "train"
    right after the load. *)
Theorem create_dpo_datasets_single_split (lib : Library)
    (tokenizer : Tokenizer) (data_args : DataArgs) (dataset : pyobj) :
  load_result lib data_args = Ok dataset →
  py_in "none" (splits data_args) = false →
  (py_in "train" (splits data_args) = true →
   py_in "test" (splits data_args) = false →
   ∀ selected train,
     py_getitem dataset "train" = Ok selected →
     returned_from lib tokenizer data_args (template_requested data_args)
       selected train →
     outcome (create_dpo_datasets lib tokenizer data_args)
       = Raise (KeyError "test")) ∧
  (py_in "train" (splits data_args) = false →
   py_in "test" (splits data_args) = true →
   ∀ selected,
     py_getitem dataset "test" = Ok selected →
     create_dpo_datasets lib tokenizer data_args
       = ([load_event data_args], Raise (KeyError "train"))).
Proof.
  intros Hload En. pose proof (py_ne_true_of_not_none _ En) as Hne. split.
  - intros Etrain Etest selected train Hget Hret.
    assert (select_splits dataset (splits data_args)
            = Ok (<["train" := selected]> ∅)) as Hsel.
    { unfold select_splits. rewrite Etrain, Etest, En, Hget. done. }
    rewrite create_dpo_datasets_run, Hload, Hsel. cbn zeta.
    rewrite apply_preprocessing_run. unfold returned_from in Hret.
    rewrite lookup_insert_eq, lookup_insert_ne, lookup_empty, Hne by done.
    destruct (template_requested data_args).
    + by rewrite Hret.
    + subst train. cbn [outcome snd]. rewrite print_sizes_run.
      rewrite lookup_insert_eq, lookup_insert_ne, lookup_empty, Hne by done.
      apply py_getitem_Ok in Hget as (_ & n & ->). done.
  - intros Etrain Etest selected Hget.
    assert (select_splits dataset (splits data_args)
            = Ok (<["test" := selected]> ∅)) as Hsel.
    { unfold select_splits. rewrite Etrain, Etest, En, Hget. done. }
    rewrite create_dpo_datasets_run, Hload, Hsel. cbn zeta.
    rewrite apply_preprocessing_run.
    rewrite lookup_insert_ne, lookup_empty by done.
    destruct (template_requested data_args).
    + done.
    + cbn [outcome trace fst snd]. rewrite print_sizes_run.
      rewrite lookup_insert_ne, lookup_empty by done. done.
Qed.

Lemma create_dpo_datasets_single_split_witness :
  outcome (create_dpo_datasets sample_lib sample_tokenizer
             (sample_data_args (SplitsStr "train") "chatml"))
    = Raise (KeyError "test") ∧
  create_dpo_datasets sample_lib sample_tokenizer
    (sample_data_args (SplitsList ["test"]) "chatml")
    = ([CallLoadDataset "trl-lib/ultrafeedback_binarized"],
       Raise (KeyError "train")).
Proof.
  split.
  - destruct (create_dpo_datasets_single_split sample_lib sample_tokenizer
                (sample_data_args (SplitsStr "train") "chatml")
                sample_dataset eq_refl eq_refl) as [Htrain _].
    destruct (py_map (preprocess sample_lib sample_tokenizer
                        (sample_data_args (SplitsStr "train") "chatml"))
                (PDataset [sample_row])) as [train|e] eqn:Hm;
      [|vm_compute in Hm; discriminate].
    exact (Htrain eq_refl eq_refl (PDataset [sample_row]) train eq_refl Hm).
  - destruct (create_dpo_datasets_single_split sample_lib sample_tokenizer
                (sample_data_args (SplitsList ["test"]) "chatml")
                sample_dataset eq_refl eq_refl) as [_ Htest].
    exact (Htest eq_refl eq_refl (PDataset []) eq_refl).
Defined.

(** X3: with "none" in [splits], [splits] not the string "none" and no
    template requested, the run reports the size of the whole dataset and
    then raises [TypeError] on [len(None)]. *)
Theorem create_dpo_datasets_len_of_None (lib : Library)
    (tokenizer : Tokenizer) (data_args : DataArgs) (dataset : pyobj)
    (raw : gmap string pyobj) :
  load_result lib data_args = Ok dataset →
  select_splits dataset (splits data_args) = Ok raw →
  py_in "none" (splits data_args) = true →
  splits data_args ≠ SplitsStr "none" →
  apply_chat_template data_args = "none" →
  ∃ n,
    py_len dataset = Ok n ∧
    create_dpo_datasets lib tokenizer data_args
    = ([load_event data_args; CallLen dataset; CallPrint (size_line n);
        CallLen PNone],
       Raise (TypeError "object of type 'NoneType' has no len()")).
Proof.
  intros Hload Hsel Hnone Hs Ht.
  destruct (select_splits_none_in _ _ _ Hsel Hnone) as [Htrain Htest].
  assert (py_ne (splits data_args) "none" = true) as Hne.
  { destruct (py_ne (splits data_args) "none") eqn:E; [done|].
    by apply py_ne_false in E. }
  apply template_requested_false in Ht.
  destruct (load_result_Ok _ _ _ Hload) as [l ->].
  destruct (py_len_loaded l) as [n Hn]. exists n. split; [done|].
  rewrite create_dpo_datasets_run, Hload, Hsel. cbn zeta.
  rewrite apply_preprocessing_run, Ht. cbn [outcome trace fst snd].
  rewrite print_sizes_run, Htrain, Hn, Hne, Htest. done.
Qed.

Lemma create_dpo_datasets_len_of_None_witness :
  create_dpo_datasets sample_lib sample_tokenizer
    (sample_data_args (SplitsStr "train,none") "none")
  = ([CallLoadDataset "trl-lib/ultrafeedback_binarized";
      CallLen sample_dataset; CallPrint "Dataset size: 2"; CallLen PNone],
     Raise (TypeError "object of type 'NoneType' has no len()")).
Proof.
  destruct (select_splits sample_dataset (SplitsStr "train,none"))
    as [raw|e] eqn:Hsel; [|vm_compute in Hsel; discriminate].
  destruct (create_dpo_datasets_len_of_None sample_lib sample_tokenizer
              (sample_data_args (SplitsStr "train,none") "none")
              sample_dataset raw eq_refl Hsel eq_refl)
    as (n & Hn & Hrun); [done | done |].
  vm_compute in Hn. injection Hn as <-. exact Hrun.
Defined.

(** X4: a split that [splits] names and the loaded [DatasetDict] lacks
    raises [KeyError] right after the load, also when "none" is in [splits]
    and the selected split would be overwritten. *)
Theorem create_dpo_datasets_missing_split (lib : Library)
    (tokenizer : Tokenizer) (data_args : DataArgs)
    (d : list (string * list row)) :
  load_result lib data_args = Ok (PDatasetDict d) →
  (py_in "train" (splits data_args) = true →
   assoc_lookup "train" d = None →
   create_dpo_datasets lib tokenizer data_args
     = ([load_event data_args], Raise (KeyError "train"))) ∧
  (py_in "test" (splits data_args) = true →
   assoc_lookup "test" d = None →
   (py_in "train" (splits data_args) = false ∨
    is_Some (assoc_lookup "train" d)) →
   create_dpo_datasets lib tokenizer data_args
     = ([load_event data_args], Raise (KeyError "test"))).
Proof.
  intros Hload. split.
  - intros Etrain Hmiss.
    rewrite create_dpo_datasets_run, Hload.
    unfold select_splits. rewrite Etrain. simpl. by rewrite Hmiss.
  - intros Etest Hmiss Htrain.
    rewrite create_dpo_datasets_run, Hload.
    unfold select_splits. rewrite Etest.
    destruct Htrain as [-> | [rows Hrows]].
    + simpl. by rewrite Hmiss.
    + destruct (py_in "train" (splits data_args)); simpl;
        rewrite ?Hrows; simpl; by rewrite Hmiss.
Qed.

Lemma create_dpo_datasets_missing_split_witness :
  create_dpo_datasets sample_disk_lib sample_tokenizer sample_disk_args
  = ([CallLoadFromDisk "data/prefs"], Raise (KeyError "train")).
Proof.
  exact (proj1 (create_dpo_datasets_missing_split sample_disk_lib
                  sample_tokenizer sample_disk_args [("test", [])] eq_refl)
           eq_refl eq_refl).
Defined.

(** X5: when [apply_chat_template] is "none" no [map] is ever evaluated,
    whatever the run does otherwise. *)
Theorem create_dpo_datasets_no_map_without_template (lib : Library)
    (tokenizer : Tokenizer) (data_args : DataArgs) :
  apply_chat_template data_args = "none" →
  Forall (λ e, is_map e = false)
    (trace (create_dpo_datasets lib tokenizer data_args)).
Proof.
  intros Ht%template_requested_false.
  rewrite create_dpo_datasets_run.
  assert (is_map (load_event data_args) = false) as Hl
    by (unfold load_event; by destruct (is_local_data data_args)).
  destruct (load_result lib data_args) as [dataset|e];
    [|by repeat constructor].
  destruct (select_splits dataset (splits data_args)) as [raw|e];
    [|by repeat constructor].
  cbn zeta. rewrite apply_preprocessing_run, Ht.
  cbn [outcome trace fst snd app].
  constructor; [done|].
  eapply Forall_impl; [apply print_sizes_trace|]. by intros ? [_ ?].
Qed.

Lemma create_dpo_datasets_no_map_without_template_witness :
  Forall (λ e, is_map e = false)
    (trace (create_dpo_datasets sample_lib sample_tokenizer
              (sample_data_args (SplitsStr "train,test") "none"))).
Proof.
  exact (create_dpo_datasets_no_map_without_template sample_lib
           sample_tokenizer (sample_data_args (SplitsStr "train,test") "none")
           eq_refl).
Defined.

(** X6: what a run that returns has done, in order: the load, the [map] of
    the train split and then of the test split when a template is requested
    (the test split only when [splits] is not the string "none"), the size
    report of the returned train split, and the size report of the returned
    test split unless [splits] is that string.  The sizes are those of the
    splits after the [map]. *)
Theorem create_dpo_datasets_trace_of_return (lib : Library)
    (tokenizer : Tokenizer) (data_args : DataArgs) (train test : pyobj) :
  outcome (create_dpo_datasets lib tokenizer data_args) = Ok (train, test) →
  ∃ dataset raw sel_train sel_test n,
    load_result lib data_args = Ok dataset ∧
    select_splits dataset (splits data_args) = Ok raw ∧
    raw !! "train" = Some sel_train ∧
    raw !! "test" = Some sel_test ∧
    py_len train = Ok n ∧
    trace (create_dpo_datasets lib tokenizer data_args) =
      load_event data_args
      :: map_events data_args sel_train sel_test
      ++ [CallLen train; CallPrint (size_line n)]
      ++ (if py_ne (splits data_args) "none" then size_events test else []).
Proof.
  rewrite create_dpo_datasets_run.
  destruct (load_result lib data_args) as [dataset|]; [|done].
  destruct (select_splits dataset (splits data_args)) as [raw|] eqn:Hsel; [|done].
  cbn zeta. rewrite apply_preprocessing_run.
  unfold map_events, size_events, size_line.
  destruct (template_requested data_args).
  - destruct (raw !! "train") as [sel_train|] eqn:Htrain; [|done].
    destruct (py_map _ sel_train) as [train'|] eqn:Hmap1; [|done].
    destruct (py_ne (splits data_args) "none") eqn:Hne.
    + destruct (raw !! "test") as [sel_test|] eqn:Htest; [|done].
      destruct (py_map _ sel_test) as [test'|] eqn:Hmap2; [|done].
      cbn [outcome trace fst snd]. rewrite print_sizes_run, Hne.
      rewrite lookup_insert_ne, !lookup_insert_eq by done.
      destruct (py_len train') as [n|] eqn:Hn; [|done].
      destruct (py_len test') as [m|] eqn:Hm; [|done].
      cbn [outcome trace fst snd]. intros [= <- <-].
      exists dataset, raw, sel_train, sel_test, n. by rewrite Hm.
    + cbn [outcome trace fst snd]. rewrite print_sizes_run, Hne.
      rewrite lookup_insert_eq, lookup_insert_ne by done.
      destruct (py_len train') as [n|] eqn:Hn; [|done].
      cbn [outcome trace fst snd].
      destruct (raw !! "test") as [sel_test|] eqn:Htest; [|done].
      intros [= <- <-].
      by exists dataset, raw, sel_train, sel_test, n.
  - cbn [outcome trace fst snd]. rewrite print_sizes_run.
    destruct (raw !! "train") as [sel_train|] eqn:Htrain; [|done].
    destruct (py_len sel_train) as [n|] eqn:Hn; [|done].
    destruct (py_ne (splits data_args) "none") eqn:Hne.
    + destruct (raw !! "test") as [sel_test|] eqn:Htest; [|done].
      destruct (py_len sel_test) as [m|] eqn:Hm; [|done].
      cbn [outcome trace fst snd]. intros [= <- <-].
      exists dataset, raw, sel_train, sel_test, n. by rewrite Hm.
    + cbn [outcome trace fst snd].
      destruct (raw !! "test") as [sel_test|] eqn:Htest; [|done].
      intros [= <- <-].
      by exists dataset, raw, sel_train, sel_test, n.
Qed.

Lemma create_dpo_datasets_trace_of_return_witness :
  match outcome (create_dpo_datasets sample_lib sample_tokenizer
                   (sample_data_args (SplitsStr "train,test") "chatml")) with
  | Ok (train, test) =>
      trace (create_dpo_datasets sample_lib sample_tokenizer
               (sample_data_args (SplitsStr "train,test") "chatml"))
      = [CallLoadDataset "trl-lib/ultrafeedback_binarized";
         CallMap (PDataset [sample_row]); CallMap (PDataset []);
         CallLen train; CallPrint "Dataset size: 1";
         CallLen test; CallPrint "Dataset size: 0"]
  | Raise _ => False
  end.
Proof.
  destruct (outcome _) as [[train test]|e] eqn:H;
    [|vm_compute in H; discriminate].
  destruct (create_dpo_datasets_trace_of_return _ _ _ _ _ H)
    as (dataset & raw & sel_train & sel_test & n
        & Hload & Hsel & Htrain & Htest & Hn & ->).
  vm_compute in Hload. injection Hload as <-.
  vm_compute in Hsel. injection Hsel as <-.
  vm_compute in Htrain, Htest. injection Htrain as <-. injection Htest as <-.
  assert (n = 1%nat ∧ py_len test = Ok 0%nat) as [-> Hm].
  { vm_compute in H. injection H as <- <-.
    vm_compute in Hn. injection Hn as <-. done. }
  unfold size_events. rewrite Hm. reflexivity.
Defined.

Lemma datasetdict_map_keys (f : row → result row)
    (d d' : list (string * list row)) :
  datasetdict_map f d = Ok d' → d'.*1 = d.*1.
Proof.
  intros H. apply datasetdict_map_Ok in H.
  induction H as [|[k rows] [k' rows'] d d' [Hk _] _ IH]; [done|].
  rewrite !fmap_cons, IH. simpl in Hk. by rewrite Hk.
Qed.

(** X7: when [splits] is the string "none" and the loader gave a
    [DatasetDict], the returned train value is a [DatasetDict] with the same
    split names in the same order, the test value is [None], and the size the
    run reports last is the number of splits, not a number of rows. *)
Theorem create_dpo_datasets_whole_datasetdict (lib : Library)
    (tokenizer : Tokenizer) (data_args : DataArgs)
    (d : list (string * list row)) (train test : pyobj) :
  load_result lib data_args = Ok (PDatasetDict d) →
  splits data_args = SplitsStr "none" →
  outcome (create_dpo_datasets lib tokenizer data_args) = Ok (train, test) →
  ∃ d',
    train = PDatasetDict d' ∧
    d'.*1 = d.*1 ∧
    test = PNone ∧
    last (trace (create_dpo_datasets lib tokenizer data_args))
      = Some (CallPrint (size_line (length d))).
Proof.
  intros Hload Hs.
  rewrite create_dpo_datasets_run, Hload, Hs, select_splits_none_string.
  cbn zeta. rewrite apply_preprocessing_run.
  rewrite lookup_insert_ne, lookup_insert_eq, ?Hs by done.
  change (py_ne (SplitsStr "none") "none") with false.
  destruct (template_requested data_args).
  - simpl py_map.
    destruct (datasetdict_map _ d) as [d'|] eqn:Hmap; [|done].
    pose proof (datasetdict_map_keys _ _ _ Hmap) as Hkeys.
    cbn [fmap result_fmap outcome trace fst snd].
    rewrite print_sizes_run, Hs.
    change (py_ne (SplitsStr "none") "none") with false.
    rewrite lookup_insert_eq. cbn [py_len outcome trace fst snd].
    repeat (rewrite lookup_insert_eq || rewrite lookup_insert_ne by done).
    intros [= <- <-]. exists d'. split_and!; try done.
    apply (f_equal length) in Hkeys. rewrite !length_fmap in Hkeys.
    by rewrite Hkeys.
  - cbn [outcome trace fst snd].
    rewrite print_sizes_run, Hs.
    change (py_ne (SplitsStr "none") "none") with false.
    rewrite lookup_insert_ne, lookup_insert_eq by done.
    cbn [py_len outcome trace fst snd].
    repeat (rewrite lookup_insert_eq || rewrite lookup_insert_ne by done).
    intros [= <- <-]. by exists d.
Qed.

Lemma create_dpo_datasets_whole_datasetdict_witness :
  match outcome (create_dpo_datasets sample_lib sample_tokenizer
                   (sample_data_args (SplitsStr "none") "chatml")) with
  | Ok (train, test) =>
      ∃ d',
        train = PDatasetDict d' ∧ d'.*1 = ["train"; "test"] ∧ test = PNone ∧
        last (trace (create_dpo_datasets sample_lib sample_tokenizer
                       (sample_data_args (SplitsStr "none") "chatml")))
          = Some (CallPrint "Dataset size: 2")
  | Raise _ => False
  end.
Proof.
  destruct (outcome _) as [[train test]|e] eqn:H;
    [|vm_compute in H; discriminate].
  exact (create_dpo_datasets_whole_datasetdict sample_lib sample_tokenizer
           (sample_data_args (SplitsStr "none") "chatml")
           [("train", [sample_row]); ("test", [])] train test
           eq_refl eq_refl H).
Defined.

(** X8: [preprocess] fails in four ways and in this order: no [chosen]
    field ([KeyError]), the renderer failing on [chosen], no [rejected] field
    ([KeyError]), the renderer failing on [rejected].  So [chosen] is
    rendered before [rejected] is even looked up, and a row with both fields
    and a renderer that accepts them is never refused. *)
Theorem preprocess_failures (lib : Library) (tokenizer : Tokenizer)
    (data_args : DataArgs) (r : row) (e : exn) :
  preprocess lib tokenizer data_args r = Raise e ↔
  (r !! "chosen" = None ∧ e = KeyError "chosen") ∨
  (∃ chosen what,
     r !! "chosen" = Some chosen ∧
     tokenizer_apply_chat_template lib tokenizer chosen = Fails what ∧
     e = ExternalError what) ∨
  (∃ chosen text,
     r !! "chosen" = Some chosen ∧
     tokenizer_apply_chat_template lib tokenizer chosen = Returns text ∧
     r !! "rejected" = None ∧ e = KeyError "rejected") ∨
  (∃ chosen text rejected what,
     r !! "chosen" = Some chosen ∧
     tokenizer_apply_chat_template lib tokenizer chosen = Returns text ∧
     r !! "rejected" = Some rejected ∧
     tokenizer_apply_chat_template lib tokenizer rejected = Fails what ∧
     e = ExternalError what).
Proof.
  unfold preprocess, row_getitem, to_apply_chat_template.
  destruct (r !! "chosen") as [c|] eqn:Hc; simpl.
  - destruct (tokenizer_apply_chat_template lib tokenizer c) as [tc|w1] eqn:H1;
      simpl.
    + destruct (r !! "rejected") as [rj|] eqn:Hr; simpl.
      * destruct (tokenizer_apply_chat_template lib tokenizer rj)
          as [tr|w2] eqn:H2; simpl.
        -- split; [done|]. intros [[? _] | [H | [H | H]]]; [done | | |].
           ++ destruct H as (? & ? & [= <-] & ? & _). congruence.
           ++ by destruct H as (? & ? & _ & _ & ? & _).
           ++ destruct H as (? & ? & ? & ? & [= <-] & _ & [= <-] & ? & _).
              congruence.
        -- split.
           ++ intros [= <-]. right; right; right. eauto 10.
           ++ intros [[? _] | [H | [H | H]]]; [done | | |].
              ** destruct H as (? & ? & [= <-] & ? & _). congruence.
              ** by destruct H as (? & ? & _ & _ & ? & _).
              ** destruct H as (? & ? & ? & ? & [= <-] & _ & [= <-] & ? & ->).
                 congruence.
      * split.
        -- intros [= <-]. right; right; left. eauto 10.
        -- intros [[? _] | [H | [H | H]]]; [done | | |].
           ++ destruct H as (? & ? & [= <-] & ? & _). congruence.
           ++ by destruct H as (? & ? & _ & _ & _ & ->).
           ++ by destruct H as (? & ? & ? & ? & _ & _ & ? & _).
    + split.
      * intros [= <-]. right; left. eauto.
      * intros [[? _] | [H | [H | H]]]; [done | | |].
        -- destruct H as (? & ? & [= <-] & ? & ->). congruence.
        -- destruct H as (? & ? & [= <-] & ? & _). congruence.
        -- destruct H as (? & ? & ? & ? & [= <-] & ? & _). congruence.
  - split.
    + intros [= <-]. by left.
    + intros [[_ ->] | [H | [H | H]]]; [done | | |].
      * by destruct H as (? & ? & ? & _).
      * by destruct H as (? & ? & ? & _).
      * by destruct H as (? & ? & ? & ? & ? & _).
Qed.

(** * Further properties of create_and_prepare_model_for_dpo *)

(** The quantization branch, outcome by outcome. *)
Lemma quantization_branch_run (lib : Library) (args : ModelArgs) :
  quantization_branch lib args =
  if use_4bit_quantization args then
    match torch_getattr (bnb_4bit_compute_dtype args) with
    | Raise e => ([], Raise e)
    | Ok compute_dtype =>
        match torch_getattr (bnb_4bit_quant_storage_dtype args) with
        | Raise e => ([], Raise e)
        | Ok storage_dtype =>
            let returned :=
              (Some (BitsAndBytesConfig_4bit true (bnb_4bit_quant_type args)
                       compute_dtype (use_nested_quant args) storage_dtype),
               Some storage_dtype) in
            if bool_decide (compute_dtype = float16) then
              match cuda_get_device_capability lib with
              | Fails what => ([], Raise (ExternalError what))
              | Returns capability =>
                  (if (8 <=? capability.1)%nat then bf16_hint else [],
                   Ok returned)
              end
            else ([], Ok returned)
        end
    end
  else if use_8bit_quantization args then
    ([], Ok (Some (BitsAndBytesConfig_8bit true), None))
  else ([], Ok (None, None)).
Proof.
  unfold quantization_branch.
  destruct (use_4bit_quantization args); [|by destruct (use_8bit_quantization args)].
  destruct (torch_getattr (bnb_4bit_compute_dtype args)) as [cd|]; [|done].
  rewrite bind_lift_Ok.
  destruct (torch_getattr (bnb_4bit_quant_storage_dtype args)) as [sd|]; [|done].
  rewrite bind_lift_Ok. cbn zeta.
  destruct (bool_decide (cd = float16)); cbn [andb]; [|done].
  destruct (cuda_get_device_capability lib) as [cap|what]; [|done].
  cbn [external_call]. rewrite bind_lift_Ok.
  by destruct (8 <=? cap.1)%nat.
Qed.

(** The events of a run are those of its quantization branch, and it fails
    exactly as that branch does. *)
Lemma create_and_prepare_model_for_dpo_run {T} (lib : Library)
    (args : ModelArgs) (data_args : DataArgs) (training_args : T) :
  trace (create_and_prepare_model_for_dpo lib args data_args training_args)
    = trace (quantization_branch lib args) ∧
  match outcome (quantization_branch lib args) with
  | Raise e =>
      outcome (create_and_prepare_model_for_dpo lib args data_args training_args)
        = Raise e
  | Ok quant =>
      ∃ model peft_config tokenizer,
        outcome (create_and_prepare_model_for_dpo lib args data_args training_args)
          = Ok (model, peft_config, tokenizer) ∧
        torch_dtype model =
          match quant.2 with
          | Some d => if is_floating_point d then d else float32
          | None => float32
          end ∧
        attn_implementation model =
          (if use_flash_attn args then "flash_attention_2" else "eager") ∧
        model_trust_remote_code model = true ∧
        tokenizer_trust_remote_code tokenizer = true ∧
        tokenizer_path tokenizer = model_name_or_path args
  end.
Proof.
  unfold create_and_prepare_model_for_dpo.
  destruct (quantization_branch lib args) as [t [quant|e]].
  - rewrite bind_Ok. cbn [trace outcome fst snd].
    destruct (fst (template_branch data_args)).
    + split; [apply app_nil_r|]. eexists _, _, _. split; [reflexivity|].
      by case_match.
    + split; [apply app_nil_r|]. eexists _, _, _. by split.
  - by rewrite bind_Raise.
Qed.

(** X9: the [torch_dtype] a model is loaded with is always a floating-point
    dtype: float32 without 4-bit quantization, and with it the storage dtype
    when that is a floating-point dtype and float32 when it is not. *)
Theorem model_torch_dtype {T} (lib : Library) (args : ModelArgs)
    (data_args : DataArgs) (training_args : T) model peft_config tokenizer :
  outcome (create_and_prepare_model_for_dpo lib args data_args training_args)
    = Ok (model, peft_config, tokenizer) →
  is_floating_point (torch_dtype model) = true ∧
  (use_4bit_quantization args = false → torch_dtype model = float32) ∧
  (use_4bit_quantization args = true →
   ∃ storage_dtype,
     torch_getattr (bnb_4bit_quant_storage_dtype args) = Ok storage_dtype ∧
     torch_dtype model =
       if is_floating_point storage_dtype then storage_dtype else float32).
Proof.
  intros H.
  destruct (create_and_prepare_model_for_dpo_run lib args data_args training_args)
    as [_ Hrun].
  destruct (outcome (quantization_branch lib args)) as [[bnb qsd]|e] eqn:Hq;
    [|congruence].
  destruct Hrun as (m & p & t & Hm & Hdtype & _).
  rewrite H in Hm. injection Hm as <- <- <-. simpl in Hdtype.
  apply quantization_branch_outcome in Hq
    as [(E4 & cd & sd & _ & Hsd & _ & ->)
       | [(E4 & _ & _ & ->) | (E4 & _ & _ & ->)]];
    rewrite E4, Hdtype; split_and!; try done.
  - by destruct sd.
  - intros _. by exists sd.
Qed.

Lemma model_torch_dtype_witness :
  match outcome (create_and_prepare_model_for_dpo sample_lib
                   (sample_args true false "all-linear")
                   (sample_data_args (SplitsStr "train,test") "none") ()) with
  | Ok (model, _, _) => torch_dtype model = bfloat16
  | Raise _ => False
  end.
Proof.
  destruct (outcome _) as [[[model peft_config] tokenizer]|e] eqn:H;
    [|vm_compute in H; discriminate].
  destruct (model_torch_dtype _ _ _ _ _ _ _ H) as (_ & _ & H4).
  destruct (H4 eq_refl) as (sd & Hsd & ->).
  vm_compute in Hsd. by injection Hsd as <-.
Defined.

(** X10: the only thing a run that returns has printed is the three-line
    bfloat16 hint, and it has printed it exactly when the model was loaded
    with a 4-bit config whose compute dtype is float16 and the device
    capability read has a major version of 8 or more. *)
Theorem bf16_hint_printed {T} (lib : Library) (args : ModelArgs)
    (data_args : DataArgs) (training_args : T) model peft_config tokenizer :
  outcome (create_and_prepare_model_for_dpo lib args data_args training_args)
    = Ok (model, peft_config, tokenizer) →
  (trace (create_and_prepare_model_for_dpo lib args data_args training_args)
     = bf16_hint ∨
   trace (create_and_prepare_model_for_dpo lib args data_args training_args)
     = []) ∧
  (trace (create_and_prepare_model_for_dpo lib args data_args training_args)
     = bf16_hint ↔
   (∃ quant_type nested storage_dtype,
      quantization_config model =
        Some (BitsAndBytesConfig_4bit true quant_type float16 nested
                storage_dtype)) ∧
   ∃ major minor,
     cuda_get_device_capability lib = Returns (major, minor) ∧ (8 ≤ major)%nat).
Proof.
  intros H.
  destruct (create_and_prepare_model_for_dpo_run lib args data_args training_args)
    as [-> _].
  apply create_and_prepare_model_for_dpo_outcome in H
    as (bnb & qsd & Hq & -> & _).
  revert Hq. rewrite quantization_branch_run. unfold bf16_hint.
  destruct (use_4bit_quantization args).
  2: { destruct (use_8bit_quantization args); cbn [trace outcome fst snd];
         intros [= <- <-];
         (split; [by right | split; [done | by intros [(? & ? & ? & ?) _]]]). }
  destruct (torch_getattr (bnb_4bit_compute_dtype args)) as [cd|e1]; [|done].
  destruct (torch_getattr (bnb_4bit_quant_storage_dtype args)) as [sd|e2]; [|done].
  cbn zeta. destruct (decide (cd = float16)) as [->|Hcd].
  2: { rewrite bool_decide_eq_false_2 by done. cbn [trace outcome fst snd].
       intros [= <- <-]. split; [by right | split; [done|]].
       intros [(? & ? & ? & [= ?]) _]. done. }
  rewrite bool_decide_eq_true_2 by done.
  destruct (cuda_get_device_capability lib) as [[major minor]|what]; [|done].
  cbn [fst snd trace outcome].
  destruct (Nat.leb_spec 8 major) as [Hle|Hlt]; intros [= <- <-].
  - split; [by left | split; [|done]].
    intros _. split; eauto 10.
  - split; [by right | split; [done|]].
    intros (_ & ? & ? & [= <- _] & ?). lia.
Qed.

Lemma bf16_hint_printed_witness :
  match outcome (create_and_prepare_model_for_dpo sample_lib
                   (sample_args true false "all-linear")
                   (sample_data_args (SplitsStr "train,test") "none") ()) with
  | Ok _ =>
      trace (create_and_prepare_model_for_dpo sample_lib
               (sample_args true false "all-linear")
               (sample_data_args (SplitsStr "train,test") "none") ())
      = bf16_hint
  | Raise _ => False
  end.
Proof.
  destruct (outcome _) as [[[model peft_config] tokenizer]|e] eqn:H;
    [|vm_compute in H; discriminate].
  destruct (bf16_hint_printed _ _ _ _ _ _ _ H) as (_ & _ & Hhint).
  apply Hhint. split.
  - vm_compute in H. injection H as <- _ _. by eexists _, _, _.
  - exists 8%nat, 0%nat. split; [done | lia].
Defined.

Lemma count_char_split (sep : ascii) (s : string) :
  length (split sep s) = S (count_char sep s).
Proof.
  induction s as [|c t IH]; [done|].
  simpl. destruct (Ascii.eqb c sep); simpl; [by rewrite IH|].
  destruct (split sep t); simpl in *; lia.
Qed.

Lemma split_without_sep (sep : ascii) (s : string) :
  has_char sep s = false → split sep s = [s].
Proof.
  induction s as [|c t IH]; [done|].
  simpl. destruct (Ascii.eqb c sep); [done|].
  intros H. by rewrite (IH H).
Qed.

(** X12: the [target_modules] list of a LoRA configuration is never empty:
    it has one entry more than [lora_target_modules] has commas.  A name
    without a comma other than "all-linear", the empty string included,
    gives the one-element list of that name. *)
Theorem peft_target_modules_list {T} (lib : Library) (args : ModelArgs)
    (data_args : DataArgs) (training_args : T) model peft_config tokenizer :
  outcome (create_and_prepare_model_for_dpo lib args data_args training_args)
    = Ok (model, peft_config, tokenizer) →
  use_peft_lora args = true →
  lora_target_modules args ≠ "all-linear" →
  ∃ pieces,
    peft_config =
      Some (mkLoraConfig (lora_alpha args) (lora_dropout args) (lora_r args)
              "none" "CAUSAL_LM" (TargetList pieces)) ∧
    length pieces = S (count_char "," (lora_target_modules args)) ∧
    (has_char "," (lora_target_modules args) = false →
     pieces = [lora_target_modules args]).
Proof.
  intros H Hlora Hne.
  apply create_and_prepare_model_for_dpo_outcome in H
    as (_ & _ & _ & _ & _ & -> & _).
  unfold peft_branch. rewrite Hlora.
  destruct (String.eqb_spec (lora_target_modules args) "all-linear"); [done|].
  eexists. split; [reflexivity|]. split.
  - apply count_char_split.
  - apply split_without_sep.
Qed.

Lemma peft_target_modules_list_witness :
  match outcome (create_and_prepare_model_for_dpo sample_lib
                   (sample_args false false EmptyString)
                   (sample_data_args (SplitsStr "train,test") "none") ()) with
  | Ok (_, peft_config, _) =>
      peft_config =
        Some (mkLoraConfig 16 (QArith_base.Qmake 1 10) 8 "none" "CAUSAL_LM"
                (TargetList [EmptyString]))
  | Raise _ => False
  end.
Proof.
  destruct (outcome _) as [[[model peft_config] tokenizer]|e] eqn:H;
    [|vm_compute in H; discriminate].
  destruct (peft_target_modules_list _ _ _ _ _ _ _ H eq_refl)
    as (pieces & -> & _ & Hone); [done|].
  by rewrite (Hone eq_refl).
Defined.

Lemma preprocess_failures_witness :
  preprocess sample_lib sample_tokenizer
    (sample_data_args (SplitsStr "train,test") "chatml")
    sample_row_without_chosen
  = Raise (KeyError "chosen").
Proof.
  apply preprocess_failures. left. split; reflexivity.
Defined.

(** X13: when a template is requested and the [map] of the train split
    raises, the run ends with that exception right after that [map]: the
    test split is not mapped and no size is reported.  If the first row of a
    train [Dataset] has no [chosen] field, that exception is the [KeyError]
    for "chosen". *)
Theorem create_dpo_datasets_map_failure (lib : Library)
    (tokenizer : Tokenizer) (data_args : DataArgs) (dataset : pyobj)
    (raw : gmap string pyobj) (sel_train : pyobj) :
  load_result lib data_args = Ok dataset →
  select_splits dataset (splits data_args) = Ok raw →
  raw !! "train" = Some sel_train →
  apply_chat_template data_args ≠ "none" →
  (∀ e,
     py_map (preprocess lib tokenizer data_args) sel_train = Raise e →
     create_dpo_datasets lib tokenizer data_args
       = ([load_event data_args; CallMap sel_train], Raise e)) ∧
  (∀ r rows,
     sel_train = PDataset (r :: rows) →
     r !! "chosen" = None →
     create_dpo_datasets lib tokenizer data_args
       = ([load_event data_args; CallMap sel_train], Raise (KeyError "chosen"))).
Proof.
  intros Hload Hsel Htrain Ht%template_requested_true.
  assert (∀ e,
            py_map (preprocess lib tokenizer data_args) sel_train = Raise e →
            create_dpo_datasets lib tokenizer data_args
              = ([load_event data_args; CallMap sel_train], Raise e)) as Hfail.
  { intros e Hmap.
    rewrite create_dpo_datasets_run, Hload, Hsel. cbn zeta.
    by rewrite apply_preprocessing_run, Ht, Htrain, Hmap. }
  split; [exact Hfail|].
  intros r rows -> Hc. apply Hfail.
  assert (preprocess lib tokenizer data_args r = Raise (KeyError "chosen")) as Hp
    by (unfold preprocess, row_getitem; by rewrite Hc).
  unfold py_map. cbn [dataset_map]. by rewrite Hp.
Qed.

Lemma create_dpo_datasets_map_failure_witness :
  create_dpo_datasets sample_broken_lib sample_tokenizer sample_broken_args
  = ([CallLoadFromDisk "data/broken";
      CallMap (PDataset [sample_row_without_chosen; sample_row])],
     Raise (KeyError "chosen")).
Proof.
  destruct (create_dpo_datasets_map_failure sample_broken_lib sample_tokenizer
              sample_broken_args
              (PDataset [sample_row_without_chosen; sample_row])
              (<["test" := PNone]>
                 (<["train" := PDataset [sample_row_without_chosen; sample_row]]> ∅))
              (PDataset [sample_row_without_chosen; sample_row])
              eq_refl eq_refl eq_refl) as [_ Hfirst]; [done|].
  exact (Hfirst sample_row_without_chosen [sample_row] eq_refl eq_refl).
Defined.
